(** * Bounding-box trimming of SVG documents: [trim_svg.py] and [trim_svg_fixed.py]

    A shallow embedding of the two scripts under [src/assets/] and the
    properties of their geometry core.

    Modelling conventions.
    - Python [float] values are modelled by the rational numbers they denote
      ([Q]); arithmetic is exact.  The data model of the specification speaks
      of "real numbers", so IEEE rounding, infinities and NaN are outside the
      model.  The two builtins that cross between text and numbers,
      [float(s)] and [str(x)], are parameters of the development
      ([py_float], [py_str]); [decimal_float] and [decimal_repr] are their
      restrictions to plain decimal literals and are used to run the model on
      concrete documents.
    - Python [str] values are Rocq [string]s, a character being the code
      point of its byte (U+0000..U+00FF).
    - A raised exception is the [Raise] case of [result]; the output file of
      [trim_svg] is an explicit piece of state.
    - The document tree of ElementTree / lxml is the inductive [element]:
      a tag, an attribute dictionary and the ordered children. *)

From Stdlib Require Import List String Ascii Bool Arith ZArith QArith.
From Stdlib Require Import DecimalString Lia Lqa Permutation.
Import ListNotations.

(* ================================================================== *)
(** * Python builtins used by the scripts *)

Module Py.

(** Exceptions the scripts can raise. *)
Inductive exn : Type := ValueError | TypeError | AttributeError | IndexError.

Inductive result (A : Type) : Type :=
| Ok (a : A)
| Raise (e : exn).

Arguments Ok {A} a.
Arguments Raise {A} e.

Definition bind {A B : Type} (m : result A) (f : A -> result B) : result B :=
  match m with
  | Ok a => f a
  | Raise e => Raise e
  end.

Definition is_ok {A : Type} (m : result A) : bool :=
  match m with Ok _ => true | Raise _ => false end.

(** [[f(x) for x in l]] for an [f] that may raise: stops at the first
    exception. *)
Fixpoint map_result {A B : Type} (f : A -> result B) (l : list A)
  : result (list B) :=
  match l with
  | [] => Ok []
  | x :: l' =>
      bind (f x) (fun y => bind (map_result f l') (fun ys => Ok (y :: ys)))
  end.

(** ** Characters and strings *)

Definition ascii_in (s : string) (c : ascii) : bool :=
  existsb (Ascii.eqb c) (list_ascii_of_string s).

(** [c.isdigit()] restricted to one-byte code points: the digits 0-9. *)
Definition isdigit (c : ascii) : bool :=
  let n := nat_of_ascii c in (48 <=? n) && (n <=? 57).

(** [c.isspace()] on one-byte code points: TAB, LF, VT, FF, CR, the
    separators U+001C..U+001F, the space, U+0085 and U+00A0. *)
Definition isspace (c : ascii) : bool :=
  let n := nat_of_ascii c in
  ((9 <=? n) && (n <=? 13)) || ((28 <=? n) && (n <=? 32))
  || (n =? 133) || (n =? 160).

Fixpoint lstrip (s : string) : string :=
  match s with
  | String c s' => if isspace c then lstrip s' else s
  | EmptyString => EmptyString
  end.

(** [rstrip] drops a character when it is a space and everything after it
    has been dropped. *)
Fixpoint rstrip (s : string) : string :=
  match s with
  | String c s' =>
      match rstrip s' with
      | EmptyString => if isspace c then EmptyString else String c EmptyString
      | r => String c r
      end
  | EmptyString => EmptyString
  end.

(** [s.strip()] *)
Definition strip (s : string) : string := rstrip (lstrip s).

(** [s.split()]: maximal runs of non-space characters.  [cur] is the run
    being read, in reverse. *)
Fixpoint split_ws_aux (s : string) (cur : list ascii) : list string :=
  let flush (rest : list string) :=
    match cur with
    | [] => rest
    | _ => string_of_list_ascii (rev cur) :: rest
    end in
  match s with
  | EmptyString => flush []
  | String c s' =>
      if isspace c then flush (split_ws_aux s' [])
      else split_ws_aux s' (c :: cur)
  end.

Definition split_ws (s : string) : list string := split_ws_aux s [].

(** [s.startswith(p)] *)
Definition startswith (s p : string) : bool := String.prefix p s.

(** [s.endswith(p)] *)
Definition endswith (s p : string) : bool :=
  let n := String.length s in
  let m := String.length p in
  (m <=? n) && String.eqb (String.substring (n - m) m s) p.

(** [s.split('}')[-1]]: what follows the last closing brace, the whole
    string when there is none. *)
Fixpoint after_last_brace (s : string) : string :=
  match s with
  | EmptyString => EmptyString
  | String c s' =>
      if ascii_in "}" c then after_last_brace s'
      else if existsb (ascii_in "}") (list_ascii_of_string s')
           then after_last_brace s'
           else s
  end.

(** Truth value of a string or of a list: non-empty. *)
Definition truthy (s : string) : bool :=
  match s with EmptyString => false | _ => true end.

(** ** [min] and [max] *)

Definition Qltb (a b : Q) : bool :=
  match a ?= b with Lt => true | _ => false end.

(** [min(a, b)]: the second argument wins only when strictly smaller. *)
Definition min2 (a b : Q) : Q := if Qltb b a then b else a.

(** [max(a, b)]: the second argument wins only when strictly greater. *)
Definition max2 (a b : Q) : Q := if Qltb a b then b else a.

(** [min(l)] and [max(l)] of a non-empty sequence, by a left-to-right scan
    that starts from the first item; [ValueError] on the empty one. *)
Definition min_list (l : list Q) : result Q :=
  match l with
  | [] => Raise ValueError
  | x :: l' => Ok (fold_left min2 l' x)
  end.

Definition max_list (l : list Q) : result Q :=
  match l with
  | [] => Raise ValueError
  | x :: l' => Ok (fold_left max2 l' x)
  end.

(** The accumulators of [calculate_content_bounds] start at
    [float('inf')] and [float('-inf')]: rationals extended by the two
    infinities, with the order of the floats. *)
Inductive ext : Type := NegInf | Fin (q : Q) | PosInf.

Definition ext_ltb (a b : ext) : bool :=
  match a, b with
  | NegInf, NegInf => false
  | NegInf, _ => true
  | Fin _, NegInf => false
  | Fin x, Fin y => Qltb x y
  | Fin _, PosInf => true
  | PosInf, _ => false
  end.

Definition ext_min2 (a b : ext) : ext := if ext_ltb b a then b else a.
Definition ext_max2 (a b : ext) : ext := if ext_ltb a b then b else a.

(** [l[0::2]] and [l[1::2]] *)
Fixpoint evens {A : Type} (l : list A) : list A :=
  match l with
  | x :: _ :: l' => x :: evens l'
  | [x] => [x]
  | [] => []
  end.

Definition odds {A : Type} (l : list A) : list A :=
  match l with
  | _ :: l' => evens l'
  | [] => []
  end.

(** ** Dictionaries of attributes *)

Definition attrib := list (string * string).

(** [d.get(k)] *)
Fixpoint get (d : attrib) (k : string) : option string :=
  match d with
  | [] => None
  | (k', v) :: d' => if String.eqb k' k then Some v else get d' k
  end.

(** [d[k] = v]: replace in place, or append a new key. *)
Fixpoint set (d : attrib) (k v : string) : attrib :=
  match d with
  | [] => [(k, v)]
  | (k', v') :: d' =>
      if String.eqb k' k then (k', v) :: d' else (k', v') :: set d' k v
  end.

End Py.

Import Py.

Notation "x <- m ;; k" := (Py.bind m (fun x => k))
  (at level 61, m at next level, right associativity).

(* ================================================================== *)
(** * The fragment of Python's [re] the scripts rely on *)

Module Re.

(** Patterns.  Repetition is only ever applied to a character class in the
    scripts, which keeps the matcher structurally recursive. *)
Inductive regex : Type :=
| Lit (s : string)                 (* literal text *)
| Class (p : ascii -> bool)        (* one character of a class *)
| Star (p : ascii -> bool)         (* [class]*, greedy *)
| Plus (p : ascii -> bool)         (* [class]+, greedy *)
| Opt (r : regex)                  (* r?, greedy *)
| Seq (r1 r2 : regex)
| Group (n : nat) (r : regex).     (* capturing group number n *)

(** Captured groups: number and text of every group that took part in the
    match. *)
Definition captures := list (nat * string).

Fixpoint group (caps : captures) (n : nat) : option string :=
  match caps with
  | [] => None
  | (m, s) :: caps' => if Nat.eqb m n then Some s else group caps' n
  end.

Section Matcher.

Variable R : Type.

(** After a literal. *)
Fixpoint lit (p s : string) (k : string -> option R) : option R :=
  match p with
  | EmptyString => k s
  | String a p' =>
      match s with
      | String c s' => if Ascii.eqb a c then lit p' s' k else None
      | EmptyString => None
      end
  end.

(** Greedy repetition of a class: the longest run first, then shorter ones
    as the continuation fails. *)
Fixpoint star (p : ascii -> bool) (s : string) (k : string -> option R)
  : option R :=
  match s with
  | String c s' =>
      if p c then
        match star p s' k with
        | Some x => Some x
        | None => k s
        end
      else k s
  | EmptyString => k s
  end.

(** Backtracking matcher in continuation-passing style: [k] receives what
    is left of the subject and the groups captured so far. *)
Fixpoint run (r : regex) (s : string) (caps : captures)
  (k : string -> captures -> option R) : option R :=
  match r with
  | Lit p => lit p s (fun s' => k s' caps)
  | Class p =>
      match s with
      | String c s' => if p c then k s' caps else None
      | EmptyString => None
      end
  | Star p => star p s (fun s' => k s' caps)
  | Plus p =>
      match s with
      | String c s' => if p c then star p s' (fun s'' => k s'' caps) else None
      | EmptyString => None
      end
  | Opt r' =>
      match run r' s caps k with
      | Some x => Some x
      | None => k s caps
      end
  | Seq r1 r2 => run r1 s caps (fun s' caps' => run r2 s' caps' k)
  | Group n r' =>
      run r' s caps
        (fun s' caps' =>
           k s' ((n, String.substring 0 (String.length s - String.length s') s)
                   :: caps'))
  end.

End Matcher.

Arguments lit {R} p s k.
Arguments star {R} p s k.
Arguments run {R} r s caps k.

(** A match anchored at the start of [s]: the matched text, the groups and
    the rest of the subject. *)
Definition match_at (r : regex) (s : string)
  : option (string * captures * string) :=
  run r s []
    (fun rest caps =>
       Some (String.substring 0 (String.length s - String.length rest) s,
             caps, rest)).

(** [re.match(r, s)]: the match object is represented by the matched text
    and the groups. *)
Definition match_ (r : regex) (s : string) : option (string * captures) :=
  match match_at r s with
  | Some (m, caps, _) => Some (m, caps)
  | None => None
  end.

(** [re.fullmatch(r, s)]: a way of matching that uses up the subject. *)
Definition fullmatch (r : regex) (s : string) : option captures :=
  run r s []
    (fun rest caps =>
       match rest with
       | EmptyString => Some caps
       | String _ _ => None
       end).

(** [re.search(r, s)]: the first position, from the left, with a match. *)
Fixpoint search (r : regex) (s : string) : option (string * captures) :=
  match match_ r s with
  | Some m => Some m
  | None =>
      match s with
      | String _ s' => search r s'
      | EmptyString => None
      end
  end.

(** [re.findall(r, s)] for a pattern without groups: the successive
    non-overlapping matches.  [skip] counts the characters still covered by
    the previous match. *)
Fixpoint findall_from (r : regex) (s : string) (skip : nat) : list string :=
  match s with
  | EmptyString =>
      match match_at r s with
      | Some (m, _, _) => [m]
      | None => []
      end
  | String _ s' =>
      match skip with
      | S n => findall_from r s' n
      | O =>
          match match_at r s with
          | Some (m, _, _) => m :: findall_from r s' (String.length m - 1)
          | None => findall_from r s' 0
          end
      end
  end.

Definition findall (r : regex) (s : string) : list string :=
  findall_from r s 0.

(** ** The patterns of the scripts *)

Definition sign_char : ascii -> bool := ascii_in "-+".
Definition dot_char : ascii -> bool := ascii_in ".".
Definition exp_char : ascii -> bool := ascii_in "eE".
Definition command_char : ascii -> bool := ascii_in "MLHVCSQTAZmlhvcsqtaz".

(** [[-+]?\d*\.?\d+] *)
Definition number : regex :=
  Seq (Opt (Class sign_char))
    (Seq (Star isdigit) (Seq (Opt (Class dot_char)) (Plus isdigit))).

(** [[-+]?\d*\.?\d+(?:[eE][-+]?\d+)?] *)
Definition number_exp : regex :=
  Seq number
    (Opt (Seq (Class exp_char) (Seq (Opt (Class sign_char)) (Plus isdigit)))).

(** [[MLHVCSQTAZmlhvcsqtaz][^MLHVCSQTAZmlhvcsqtaz]*] *)
Definition command : regex :=
  Seq (Class command_char) (Star (fun c => negb (command_char c))).

(** [translate\s*\(\s*([-+]?\d*\.?\d+)\s*,?\s*([-+]?\d*\.?\d+)?\s*\)] *)
Definition translate : regex :=
  Seq (Lit "translate")
    (Seq (Star isspace)
       (Seq (Lit "(")
          (Seq (Star isspace)
             (Seq (Group 1 number)
                (Seq (Star isspace)
                   (Seq (Opt (Lit ","))
                      (Seq (Star isspace)
                         (Seq (Opt (Group 2 number))
                            (Seq (Star isspace) (Lit ")")))))))))).

End Re.

(* ================================================================== *)
(** * Numbers as text: decimal literals *)

Module Decimal.

Definition digit_value (c : ascii) : Z := Z.of_nat (nat_of_ascii c - 48).

(** Reads a run of digits: the number read so far, how many digits were
    read, and the rest of the text. *)
Fixpoint read_digits (s : string) (acc : Z) (n : nat) : Z * nat * string :=
  match s with
  | String c s' =>
      if isdigit c then read_digits s' (10 * acc + digit_value c)%Z (S n)
      else (acc, n, s)
  | EmptyString => (acc, n, s)
  end.

Fixpoint pow10 (n : nat) : positive :=
  match n with
  | O => 1%positive
  | S n' => (10 * pow10 n')%positive
  end.

Definition read_sign (s : string) : bool * string :=
  match s with
  | String c s' =>
      if Ascii.eqb c "-" then (true, s')
      else if Ascii.eqb c "+" then (false, s')
      else (false, s)
  | EmptyString => (false, s)
  end.

(** [float(s)] on the plain decimal literals: surrounding white space, a
    sign, digits with at most one point and at least one digit.  Everything
    else is answered with [ValueError]; that is Python's answer except for
    exponents, [inf], [nan] and digit separators, which Python reads and
    this instance does not.  The instance serves the example documents,
    which hold none of these; the properties are stated for any
    [py_float]. *)
Definition decimal_float (s : string) : result Q :=
  let (neg, s1) := read_sign (strip s) in
  let '(ip, ni, s2) := read_digits s1 0%Z 0 in
  let '(num, nf, s3) :=
    match s2 with
    | String c s2' =>
        if Ascii.eqb c "." then read_digits s2' ip 0 else (ip, 0%nat, s2)
    | EmptyString => (ip, 0%nat, s2)
    end in
  match s3, (ni + nf)%nat with
  | EmptyString, S _ =>
      Ok (Qmake (if neg then - num else num)%Z (pow10 nf))
  | _, _ => Raise ValueError
  end.

Definition string_of_Z (z : Z) : string :=
  NilZero.string_of_int (Z.to_int z).

(** The digits after the point: long division, at most [fuel] digits. *)
Fixpoint fraction_digits (fuel : nat) (r d : Z) : string :=
  match fuel with
  | O => EmptyString
  | S fuel' =>
      if (r =? 0)%Z then EmptyString
      else String (ascii_of_nat (48 + Z.to_nat (10 * r / d)))
             (fraction_digits fuel' (10 * r mod d)%Z d)
  end.

(** [str(x)] for a float [x] with a short decimal expansion: integer part,
    point, fraction digits, and [.0] for an integral value. *)
Definition decimal_repr (q : Q) : string :=
  let n := Qnum q in
  let d := Zpos (Qden q) in
  let a := Z.abs n in
  let frac := fraction_digits 17 (a mod d)%Z d in
  ((if (n <? 0)%Z then "-" else "")
   ++ string_of_Z (a / d) ++ "."
   ++ (if truthy frac then frac else "0"))%string.

End Decimal.

Import Decimal.

(* ================================================================== *)
(** * Documents and rectangles *)

(** A node of the parsed document: tag, attributes, children in document
    order. *)
#[local] Unset Elimination Schemes.
Inductive element : Type :=
| Element (tag : string) (attribs : attrib) (children : list element).
#[local] Set Elimination Schemes.

Definition tag (e : element) : string :=
  match e with Element t _ _ => t end.

Definition attribs (e : element) : attrib :=
  match e with Element _ a _ => a end.

Definition children (e : element) : list element :=
  match e with Element _ _ c => c end.

(** [element.get(k)] and [element.get(k, default)] *)
Definition el_get (e : element) (k : string) : option string :=
  get (attribs e) k.

Definition el_get_default (e : element) (k default : string) : string :=
  match el_get e k with
  | Some v => v
  | None => default
  end.

(** [element.set(k, v)] *)
Definition el_set (e : element) (k v : string) : element :=
  match e with Element t a c => Element t (set a k v) c end.

(** The dictionary with keys [min_x], [max_x], [min_y], [max_y]. *)
Record bounds : Type := Bounds {
  min_x : Q;
  max_x : Q;
  min_y : Q;
  max_y : Q
}.

(** The branches of the shape dispatch of both scripts. *)
Inductive shape : Type :=
| Rect | Circle | Ellipse | Path | Line | Poly | Other.


(** Both scripts skip the same tags. *)
Definition non_visual_tags : list string :=
  ["defs"; "metadata"; "title"; "desc"; "script"; "style"]%string.

(** The output path: nothing written yet, or the tree that the script
    serialised for it.  [trim_svg_fixed.py] writes the tree itself;
    [trim_svg.py] serialises it with [ET.tostring] and edits the text on
    its way to the file (two substitutions on generated namespace
    prefixes, and an [xmlns] inserted where the text has none): what is
    recorded for it is the tree handed to [ET.tostring], not the text of
    the file. *)
Definition file_system := option element.

(* ================================================================== *)
(** * [trim_svg.py] *)

Module TrimSvg.

(** State of the loop of [parse_path_bounds]. *)
Record path_state : Type := PathState {
  x_coords : list Q;
  y_coords : list Q;
  current_x : Q;
  current_y : Q
}.

(** [x_coords.extend(xs); y_coords.extend(ys)] *)
Definition extend (xs ys : list Q) (st : path_state) : path_state :=
  PathState (x_coords st ++ xs) (y_coords st ++ ys)
    (current_x st) (current_y st).

(** [current_x = x; current_y = y] *)
Definition set_current (x y : Q) (st : path_state) : path_state :=
  PathState (x_coords st) (y_coords st) x y.

(** [current_x = x; current_y = y; x_coords.append(current_x);
    y_coords.append(current_y)] *)
Definition go_to (x y : Q) (st : path_state) : path_state :=
  extend [x] [y] (set_current x y st).

(** The [for i in range(0, len(coords), n): if i + n - 1 < len(coords)]
    loops, one per arity and addressing mode.  A trailing group that is
    too short is dropped. *)
Fixpoint pairs_abs (coords : list Q) (st : path_state) : path_state :=
  match coords with
  | x :: y :: rest => pairs_abs rest (go_to x y st)
  | _ => st
  end.

Fixpoint pairs_rel (coords : list Q) (st : path_state) : path_state :=
  match coords with
  | dx :: dy :: rest =>
      pairs_rel rest (go_to (current_x st + dx) (current_y st + dy) st)
  | _ => st
  end.

Fixpoint horizontal_abs (coords : list Q) (st : path_state) : path_state :=
  match coords with
  | x :: rest => horizontal_abs rest (go_to x (current_y st) st)
  | [] => st
  end.

Fixpoint vertical_abs (coords : list Q) (st : path_state) : path_state :=
  match coords with
  | y :: rest => vertical_abs rest (go_to (current_x st) y st)
  | [] => st
  end.

Fixpoint horizontal_rel (coords : list Q) (st : path_state) : path_state :=
  match coords with
  | dx :: rest =>
      horizontal_rel rest (go_to (current_x st + dx) (current_y st) st)
  | [] => st
  end.

Fixpoint vertical_rel (coords : list Q) (st : path_state) : path_state :=
  match coords with
  | dy :: rest =>
      vertical_rel rest (go_to (current_x st) (current_y st + dy) st)
  | [] => st
  end.

Fixpoint cubic_abs (coords : list Q) (st : path_state) : path_state :=
  match coords with
  | x1 :: y1 :: x2 :: y2 :: x :: y :: rest =>
      cubic_abs rest (set_current x y (extend [x1; x2; x] [y1; y2; y] st))
  | _ => st
  end.

Fixpoint cubic_rel (coords : list Q) (st : path_state) : path_state :=
  match coords with
  | x1 :: y1 :: x2 :: y2 :: x :: y :: rest =>
      let cx := current_x st in
      let cy := current_y st in
      cubic_rel rest
        (set_current (cx + x) (cy + y)
           (extend [cx + x1; cx + x2; cx + x] [cy + y1; cy + y2; cy + y] st))
  | _ => st
  end.

(** [S] and [Q] share one body. *)
Fixpoint quads_abs (coords : list Q) (st : path_state) : path_state :=
  match coords with
  | x1 :: y1 :: x :: y :: rest =>
      quads_abs rest (set_current x y (extend [x1; x] [y1; y] st))
  | _ => st
  end.

Fixpoint arcs_abs (coords : list Q) (st : path_state) : path_state :=
  match coords with
  | _ :: _ :: _ :: _ :: _ :: x :: y :: rest => arcs_abs rest (go_to x y st)
  | _ => st
  end.

(** [M] and [m]: nothing happens unless there are two operands; the pairs
    after the first are implicit line-to commands. *)
Definition move_abs (coords : list Q) (st : path_state) : path_state :=
  match coords with
  | x :: y :: rest => pairs_abs rest (go_to x y st)
  | _ => st
  end.

Definition move_rel (coords : list Q) (st : path_state) : path_state :=
  match coords with
  | dx :: dy :: rest =>
      pairs_rel rest (go_to (current_x st + dx) (current_y st + dy) st)
  | _ => st
  end.

(** The [if cmd_letter in 'M': ... elif ...] chain.  A letter without a
    branch leaves the state as it is. *)
Definition apply_command (cmd_letter : ascii) (coords : list Q)
  (st : path_state) : path_state :=
  if Ascii.eqb cmd_letter "M" then move_abs coords st
  else if Ascii.eqb cmd_letter "L" then pairs_abs coords st
  else if Ascii.eqb cmd_letter "H" then horizontal_abs coords st
  else if Ascii.eqb cmd_letter "V" then vertical_abs coords st
  else if Ascii.eqb cmd_letter "C" then cubic_abs coords st
  else if Ascii.eqb cmd_letter "S" then quads_abs coords st
  else if Ascii.eqb cmd_letter "Q" then quads_abs coords st
  else if Ascii.eqb cmd_letter "T" then pairs_abs coords st
  else if Ascii.eqb cmd_letter "A" then arcs_abs coords st
  else if Ascii.eqb cmd_letter "m" then move_rel coords st
  else if Ascii.eqb cmd_letter "l" then pairs_rel coords st
  else if Ascii.eqb cmd_letter "h" then horizontal_rel coords st
  else if Ascii.eqb cmd_letter "v" then vertical_rel coords st
  else if Ascii.eqb cmd_letter "c" then cubic_rel coords st
  else st.

(** The rectangle of the collected points, [None] without points. *)
Definition bounds_of_points (xs ys : list Q) : result (option bounds) :=
  match xs, ys with
  | [], _ | _, [] => Ok None
  | _, _ =>
      mnx <- min_list xs ;;
      mxx <- max_list xs ;;
      mny <- min_list ys ;;
      mxy <- max_list ys ;;
      Ok (Some (Bounds mnx mxx mny mxy))
  end.

(** The accumulators of [calculate_content_bounds]. *)
Record content_acc : Type := ContentAcc {
  acc_min_x : ext;
  acc_min_y : ext;
  acc_max_x : ext;
  acc_max_y : ext;
  has_content : bool
}.

(** [min_x, min_y = inf, inf; max_x, max_y = -inf, -inf;
    has_content = False] *)
Definition no_content : content_acc :=
  ContentAcc PosInf PosInf NegInf NegInf false.

(** The body of [if bounds:] in the loop of [calculate_content_bounds]. *)
Definition combine (acc : content_acc) (b : bounds) : content_acc :=
  ContentAcc
    (ext_min2 (acc_min_x acc) (Fin (min_x b)))
    (ext_min2 (acc_min_y acc) (Fin (min_y b)))
    (ext_max2 (acc_max_x acc) (Fin (max_x b)))
    (ext_max2 (acc_max_y acc) (Fin (max_y b)))
    true.

(** The dictionary with keys [x], [y], [width], [height]. *)
Record view_box : Type := ViewBox {
  vb_x : Q;
  vb_y : Q;
  vb_width : Q;
  vb_height : Q
}.

Definition padding : Q := 5.

(** The chain [if element.tag.endswith('rect'): ... elif ...]: the first
    suffix that fits decides the branch. *)
Definition shape_of (tag : string) : shape :=
  if endswith tag "rect" then Rect
  else if endswith tag "circle" then Circle
  else if endswith tag "ellipse" then Ellipse
  else if endswith tag "path" then Path
  else if endswith tag "line" then Line
  else if endswith tag "polygon" || endswith tag "polyline" then Poly
  else Other.

(** [root.iter()]: the node and all its descendants, in document order. *)
Fixpoint iter (e : element) : list element :=
  match e with
  | Element _ _ cs => e :: flat_map iter cs
  end.

Section WithFloat.

(** [float(s)] and [str(x)]. *)
Variable py_float : string -> result Q.
Variable py_str : Q -> string.

(** The operands of one command: [cmd[1:].strip()], then the numbers in
    it. *)
Definition command_coords (rest : string) : result (list Q) :=
  let coords_str := strip rest in
  if truthy coords_str
  then map_result py_float (Re.findall Re.number coords_str)
  else Ok [].

(** The loop [for cmd in commands]. *)
Fixpoint run_commands (commands : list string) (st : path_state)
  : result path_state :=
  match commands with
  | [] => Ok st
  | cmd :: commands' =>
      match cmd with
      | EmptyString => Raise IndexError
      | String cmd_letter rest =>
          coords <- command_coords rest ;;
          run_commands commands' (apply_command cmd_letter coords st)
      end
  end.

Definition parse_path_bounds (path_data : string) : result (option bounds) :=
  let commands := Re.findall Re.command path_data in
  st <- run_commands commands (PathState [] [] 0 0) ;;
  bounds_of_points (x_coords st) (y_coords st).

(** [float(element.get(k, 0))] *)
Definition float_attr (e : element) (k : string) : result Q :=
  match el_get e k with
  | Some v => py_float v
  | None => Ok 0
  end.

(** The shape dispatch of [get_element_bounds], before the transform. *)
Definition local_bounds (e : element) : result (option bounds) :=
  match shape_of (tag e) with
  | Rect =>
      x <- float_attr e "x" ;;
      y <- float_attr e "y" ;;
      width <- float_attr e "width" ;;
      height <- float_attr e "height" ;;
      Ok (Some (Bounds x (x + width) y (y + height)))
  | Circle =>
      cx <- float_attr e "cx" ;;
      cy <- float_attr e "cy" ;;
      r <- float_attr e "r" ;;
      Ok (Some (Bounds (cx - r) (cx + r) (cy - r) (cy + r)))
  | Ellipse =>
      cx <- float_attr e "cx" ;;
      cy <- float_attr e "cy" ;;
      rx <- float_attr e "rx" ;;
      ry <- float_attr e "ry" ;;
      Ok (Some (Bounds (cx - rx) (cx + rx) (cy - ry) (cy + ry)))
  | Path =>
      let d := el_get_default e "d" "" in
      if truthy d then parse_path_bounds d else Ok None
  | Line =>
      x1 <- float_attr e "x1" ;;
      y1 <- float_attr e "y1" ;;
      x2 <- float_attr e "x2" ;;
      y2 <- float_attr e "y2" ;;
      Ok (Some (Bounds (min2 x1 x2) (max2 x1 x2) (min2 y1 y2) (max2 y1 y2)))
  | Poly =>
      let points := el_get_default e "points" "" in
      if truthy points then
        coords <- map_result py_float (Re.findall Re.number points) ;;
        bounds_of_points (evens coords) (odds coords)
      else Ok None
  | Other => Ok None
  end.

(** [bounds['min_x'] += tx] and the three other updates. *)
Definition translate_bounds (tx ty : Q) (b : bounds) : bounds :=
  Bounds (min_x b + tx) (max_x b + tx) (min_y b + ty) (max_y b + ty).

(** What the translate pattern found: [tx] and [ty], the latter 0 when
    the second group took no part in the match. *)
Definition match_offset (caps : Re.captures) : result (Q * Q) :=
  tx <- match Re.group caps 1 with
        | Some g => py_float g
        | None => Raise TypeError
        end ;;
  ty <- match Re.group caps 2 with
        | Some g => if truthy g then py_float g else Ok 0
        | None => Ok 0
        end ;;
  Ok (tx, ty).

Definition get_element_bounds (e : element) : result (option bounds) :=
  bounds <- local_bounds e ;;
  match el_get e "transform", bounds with
  | Some transform, Some b =>
      if truthy transform then
        match Re.search Re.translate transform with
        | Some (_, caps) =>
            offset <- match_offset caps ;;
            Ok (Some (translate_bounds (fst offset) (snd offset) b))
        | None => Ok bounds
        end
      else Ok bounds
  | _, _ => Ok bounds
  end.

(** [any(element.tag.endswith(tag) for tag in [...])] *)
Definition is_non_visual (e : element) : bool :=
  existsb (endswith (tag e)) non_visual_tags.

(** The loop [for element in root.iter()]. *)
Fixpoint aggregate (elements : list element) (acc : content_acc)
  : result content_acc :=
  match elements with
  | [] => Ok acc
  | e :: elements' =>
      if is_non_visual e then aggregate elements' acc
      else
        bounds <- get_element_bounds e ;;
        match bounds with
        | Some b => aggregate elements' (combine acc b)
        | None => aggregate elements' acc
        end
  end.

(** The rectangle returned at the end of [calculate_content_bounds].  The
    accumulators are finite whenever [has_content] holds
    ([aggregate_reachable] below), so the last case is never taken. *)
Definition padded (acc : content_acc) : option view_box :=
  if negb (has_content acc) then None
  else
    match acc_min_x acc, acc_min_y acc, acc_max_x acc, acc_max_y acc with
    | Fin mnx, Fin mny, Fin mxx, Fin mxy =>
        Some (ViewBox (mnx - padding) (mny - padding)
                (mxx - mnx + 2 * padding) (mxy - mny + 2 * padding))
    | _, _, _, _ => None
    end.

Definition calculate_content_bounds (root : element)
  : result (option view_box) :=
  acc <- aggregate (iter root) no_content ;;
  Ok (padded acc).

(** The dimensions read for the report at the start of [trim_svg]. *)
Definition read_current_dims (root : element) : result (list Q) :=
  match el_get root "viewBox" with
  | Some (String _ _ as viewbox) => map_result py_float (split_ws viewbox)
  | _ =>
      let width := el_get_default root "width" "100" in
      let height := el_get_default root "height" "100" in
      match Re.match_ Re.number width with
      | None => Raise AttributeError
      | Some (width, _) =>
          match Re.match_ Re.number height with
          | None => Raise AttributeError
          | Some (height, _) =>
              w <- py_float width ;;
              h <- py_float height ;;
              Ok [0; 0; w; h]
          end
      end
  end.

(** [f"{x} {y} {width} {height}"] *)
Definition format_view_box (x y width height : Q) : string :=
  (py_str x ++ " " ++ py_str y ++ " " ++ py_str width ++ " "
   ++ py_str height)%string.

(** The closing report indexes [current_dims[2]] and [current_dims[3]]. *)
Definition report_reduction (current_dims : list Q) : result unit :=
  match current_dims with
  | _ :: _ :: _ :: _ :: _ => Ok tt
  | _ => Raise IndexError
  end.

(** [trim_svg(input_path, output_path)], from the parsed tree on: the
    returned value or the exception, and the output file afterwards.  The
    file is recorded as [root3], the tree given to [ET.tostring]; the
    editing of the serialised text that follows in the script is not
    modelled, so the record tells whether a file was written and from
    which tree, not its text. *)
Definition trim_svg (root : element) (output : file_system)
  : result bool * file_system :=
  match read_current_dims root with
  | Raise e => (Raise e, output)
  | Ok current_dims =>
      match calculate_content_bounds root with
      | Raise e => (Raise e, output)
      | Ok None => (Ok false, output)
      | Ok (Some b) =>
          let new_viewbox :=
            format_view_box (vb_x b) (vb_y b) (vb_width b) (vb_height b) in
          let root1 := el_set root "viewBox" new_viewbox in
          let root2 := el_set root1 "width" (py_str (vb_width b)) in
          let root3 := el_set root2 "height" (py_str (vb_height b)) in
          (_ <- report_reduction current_dims ;; Ok true, Some root3)
      end
  end.

End WithFloat.

End TrimSvg.

(* ================================================================== *)
(** * [trim_svg_fixed.py] *)

Module TrimSvgFixed.

Definition padding : Q := 10.

(** [child_tag not in ['defs', ...]] negated. *)
Definition is_non_visual_tag (child_tag : string) : bool :=
  existsb (String.eqb child_tag) non_visual_tags.

(** [element.tag.split('}')[-1] if '}' in element.tag else element.tag] *)
Definition local_name (e : element) : string := after_last_brace (tag e).

(** [bounds['min_x'] += tx] and the three other updates. *)
Definition translate_bounds (tx ty : Q) (b : bounds) : bounds :=
  Bounds (min_x b + tx) (max_x b + tx) (min_y b + ty) (max_y b + ty).

(** The rectangle of the collected points, [None] without points. *)
Definition bounds_of_points (xs ys : list Q) : result (option bounds) :=
  match xs, ys with
  | [], _ | _, [] => Ok None
  | _, _ =>
      mnx <- min_list xs ;;
      mxx <- max_list xs ;;
      mny <- min_list ys ;;
      mxy <- max_list ys ;;
      Ok (Some (Bounds mnx mxx mny mxy))
  end.

(** The four reductions over [all_bounds] in [trim_svg]. *)
Definition merge (all_bounds : list bounds) : result bounds :=
  mnx <- min_list (map min_x all_bounds) ;;
  mxx <- max_list (map max_x all_bounds) ;;
  mny <- min_list (map min_y all_bounds) ;;
  mxy <- max_list (map max_y all_bounds) ;;
  Ok (Bounds mnx mxx mny mxy).

(** The dictionary-free quadruple written to [viewBox]. *)
Record view_box : Type := ViewBox {
  vb_x : Q;
  vb_y : Q;
  vb_width : Q;
  vb_height : Q
}.

(** [min_x -= padding; min_y -= padding;
    width = max_x - min_x + 2 * padding;
    height = max_y - min_y + 2 * padding]: the two sizes are computed from
    the values of [min_x] and [min_y] after their update. *)
Definition add_padding (b : bounds) : view_box :=
  let min_x' := min_x b - padding in
  let min_y' := min_y b - padding in
  let width := max_x b - min_x' + 2 * padding in
  let height := max_y b - min_y' + 2 * padding in
  ViewBox min_x' min_y' width height.

(** The chain [if tag == 'path': ... elif tag == 'rect': ...]. *)
Definition shape_of (tag : string) : shape :=
  if String.eqb tag "path" then Path
  else if String.eqb tag "rect" then Rect
  else if String.eqb tag "circle" then Circle
  else if String.eqb tag "ellipse" then Ellipse
  else if String.eqb tag "line" then Line
  else if String.eqb tag "polygon" || String.eqb tag "polyline" then Poly
  else Other.

(** The loop that deletes namespace attributes from the root. *)
Definition is_namespace_key (key : string) : bool :=
  startswith key "{"
  || (startswith key "xmlns" && negb (String.eqb key "xmlns")).

Definition clean_namespaces (root : element) : element :=
  match root with
  | Element t a c =>
      Element t (filter (fun kv => negb (is_namespace_key (fst kv))) a) c
  end.

(** The closing report indexes [current_dims[2]] and [current_dims[3]]. *)
Definition report_reduction (current_dims : list Q) : result unit :=
  match current_dims with
  | _ :: _ :: _ :: _ :: _ => Ok tt
  | _ => Raise IndexError
  end.

(** [except (ValueError, IndexError)] *)
Definition caught (e : exn) : bool :=
  match e with
  | ValueError | IndexError => true
  | _ => false
  end.

Section WithFloat.

(** [float(s)] and [str(x)]. *)
Variable py_float : string -> result Q.
Variable py_str : Q -> string.

Definition parse_transform (transform_str : string) : result (Q * Q) :=
  if negb (truthy transform_str) then Ok (0, 0)
  else
    match Re.search Re.translate transform_str with
    | Some (_, caps) =>
        tx <- match Re.group caps 1 with
              | Some g => py_float g
              | None => Raise TypeError
              end ;;
        ty <- match Re.group caps 2 with
              | Some g => if truthy g then py_float g else Ok 0
              | None => Ok 0
              end ;;
        Ok (tx, ty)
    | None => Ok (0, 0)
    end.

(** The pairing loop of [get_path_bounds]: a pair whose conversion raises
    one of the exceptions named by the [except] clause is skipped. *)
Fixpoint pair_numbers (numbers : list string) (xs ys : list Q)
  : result (list Q * list Q) :=
  match numbers with
  | a :: b :: rest =>
      match (x <- py_float a ;; y <- py_float b ;; Ok (x, y)) with
      | Ok (x, y) => pair_numbers rest (xs ++ [x]) (ys ++ [y])
      | Raise e =>
          if caught e then pair_numbers rest xs ys else Raise e
      end
  | _ => Ok (xs, ys)
  end.

Definition get_path_bounds (path_data : string) : result (option bounds) :=
  let numbers := Re.findall Re.number_exp path_data in
  points <- pair_numbers numbers [] [] ;;
  bounds_of_points (fst points) (snd points).

(** [float(element.get(k, 0))] *)
Definition float_attr (e : element) (k : string) : result Q :=
  match el_get e k with
  | Some v => py_float v
  | None => Ok 0
  end.

(** "Process the element itself": the rectangles the node contributes,
    already moved by the accumulated offset. *)
Definition own_bounds (e : element) (total_tx total_ty : Q)
  : result (list bounds) :=
  match shape_of (local_name e) with
  | Path =>
      let d := el_get_default e "d" "" in
      if truthy d then
        path_bounds <- get_path_bounds d ;;
        match path_bounds with
        | Some b => Ok [translate_bounds total_tx total_ty b]
        | None => Ok []
        end
      else Ok []
  | Rect =>
      x <- float_attr e "x" ;;
      y <- float_attr e "y" ;;
      width <- float_attr e "width" ;;
      height <- float_attr e "height" ;;
      Ok [Bounds (x + total_tx) (x + width + total_tx)
            (y + total_ty) (y + height + total_ty)]
  | Circle =>
      cx <- float_attr e "cx" ;;
      cy <- float_attr e "cy" ;;
      r <- float_attr e "r" ;;
      Ok [Bounds (cx - r + total_tx) (cx + r + total_tx)
            (cy - r + total_ty) (cy + r + total_ty)]
  | Ellipse =>
      cx <- float_attr e "cx" ;;
      cy <- float_attr e "cy" ;;
      rx <- float_attr e "rx" ;;
      ry <- float_attr e "ry" ;;
      Ok [Bounds (cx - rx + total_tx) (cx + rx + total_tx)
            (cy - ry + total_ty) (cy + ry + total_ty)]
  | Line =>
      x1 <- float_attr e "x1" ;;
      y1 <- float_attr e "y1" ;;
      x2 <- float_attr e "x2" ;;
      y2 <- float_attr e "y2" ;;
      Ok [Bounds (min2 x1 x2 + total_tx) (max2 x1 x2 + total_tx)
            (min2 y1 y2 + total_ty) (max2 y1 y2 + total_ty)]
  | Poly =>
      let points := el_get_default e "points" "" in
      if truthy points then
        coords <- map_result py_float (Re.findall Re.number points) ;;
        if (2 <=? List.length coords)%nat then
          let x_coords := map (fun c => c + total_tx) (evens coords) in
          let y_coords := map (fun c => c + total_ty) (odds coords) in
          b <- bounds_of_points x_coords y_coords ;;
          match b with
          | Some b => Ok [b]
          | None => Ok []
          end
        else Ok []
      else Ok []
  | Other => Ok []
  end.

(** "Process children": the loop over the children, [recurse] being the
    recursive call with the offset of the parent. *)
Fixpoint process_children (recurse : element -> result (list bounds))
  (cs : list element) (bounds_list : list bounds) : result (list bounds) :=
  match cs with
  | [] => Ok bounds_list
  | child :: cs' =>
      if is_non_visual_tag (local_name child)
      then process_children recurse cs' bounds_list
      else
        child_bounds <- recurse child ;;
        process_children recurse cs' (bounds_list ++ child_bounds)
  end.

Fixpoint calculate_bounds_recursive (e : element) (parent_transform : Q * Q)
  : result (list bounds) :=
  match e with
  | Element _ _ cs =>
      offset <- parse_transform (el_get_default e "transform" "") ;;
      let total_tx := fst parent_transform + fst offset in
      let total_ty := snd parent_transform + snd offset in
      bounds_list <- own_bounds e total_tx total_ty ;;
      process_children
        (fun child => calculate_bounds_recursive child (total_tx, total_ty))
        cs bounds_list
  end.

(** The dimensions read for the report at the start of [trim_svg]. *)
Definition read_current_dims (root : element) : result (list Q) :=
  match el_get root "viewBox" with
  | Some (String _ _ as viewbox) => map_result py_float (split_ws viewbox)
  | _ =>
      let width := Re.match_ Re.number (el_get_default root "width" "100") in
      let height :=
        Re.match_ Re.number (el_get_default root "height" "100") in
      w <- match width with
           | Some (text, _) => py_float text
           | None => Ok 100
           end ;;
      h <- match height with
           | Some (text, _) => py_float text
           | None => Ok 100
           end ;;
      Ok [0; 0; w; h]
  end.

(** [f"{min_x} {min_y} {width} {height}"] *)
Definition format_view_box (v : view_box) : string :=
  (py_str (vb_x v) ++ " " ++ py_str (vb_y v) ++ " " ++ py_str (vb_width v)
   ++ " " ++ py_str (vb_height v))%string.

(** [trim_svg(input_path, output_path)], from the parsed tree on: the
    returned value or the exception, and the output file afterwards. *)
Definition trim_svg (root : element) (output : file_system)
  : result bool * file_system :=
  match read_current_dims root with
  | Raise e => (Raise e, output)
  | Ok current_dims =>
      match calculate_bounds_recursive root (0, 0) with
      | Raise e => (Raise e, output)
      | Ok [] => (Ok false, output)
      | Ok all_bounds =>
          match merge all_bounds with
          | Raise e => (Raise e, output)
          | Ok b =>
              let v := add_padding b in
              let root1 := el_set root "viewBox" (format_view_box v) in
              let root2 := el_set root1 "width" (py_str (vb_width v)) in
              let root3 := el_set root2 "height" (py_str (vb_height v)) in
              let root4 :=
                el_set (clean_namespaces root3) "xmlns"
                  "http://www.w3.org/2000/svg" in
              (_ <- report_reduction current_dims ;; Ok true, Some root4)
          end
      end
  end.

End WithFloat.

End TrimSvgFixed.

(* ================================================================== *)
(** * Vocabulary of the properties *)



(** Two rectangles with equal coordinates. *)
Definition bounds_equiv (a b : bounds) : Prop :=
  min_x a == min_x b /\ max_x a == max_x b
  /\ min_y a == min_y b /\ max_y a == max_y b.

(** The invariant of the data model: the corners are in order. *)
Definition valid (b : bounds) : Prop :=
  min_x b <= max_x b /\ min_y b <= max_y b.

(** A computation that, when it yields a rectangle, yields a valid one. *)
Definition yields_valid (r : result (option bounds)) : Prop :=
  match r with
  | Ok (Some b) => valid b
  | _ => True
  end.

Definition yields_all_valid (r : result (list bounds)) : Prop :=
  match r with
  | Ok l => Forall valid l
  | Raise _ => True
  end.

(** The combination of two rectangles in the words of the specification:
    componentwise minimum of the lower corners and maximum of the upper
    ones.  It is compared below with what the two folds of the scripts
    compute. *)
Definition spec_combine (A B : bounds) : bounds :=
  Bounds (min2 (min_x A) (min_x B)) (max2 (max_x A) (max_x B))
    (min2 (min_y A) (min_y B)) (max2 (max_y A) (max_y B)).

(** The attributes a branch of the shape dispatch reads as a size. *)
Definition size_attributes_of (sh : shape) : list string :=
  match sh with
  | Rect => ["width"; "height"]
  | Circle => ["r"]
  | Ellipse => ["rx"; "ry"]
  | Path | Line | Poly | Other => []
  end%string.

(** Every size that the branch [sh] reads from [e], where the attribute
    is present and numeric, is not negative.  Nothing is asked of a path,
    a line, a polygon or a polyline. *)
Definition sizes_not_negative (py_float : string -> result Q) (sh : shape)
  (e : element) : Prop :=
  Forall
    (fun k =>
       match el_get e k with
       | Some v =>
           match py_float v with
           | Ok w => 0 <= w
           | Raise _ => True
           end
       | None => True
       end)
    (size_attributes_of sh).

Definition ext_equiv (a b : ext) : Prop :=
  match a, b with
  | NegInf, NegInf | PosInf, PosInf => True
  | Fin x, Fin y => x == y
  | _, _ => False
  end.

Definition ext_le (a b : ext) : Prop :=
  match a, b with
  | NegInf, _ | _, PosInf => True
  | Fin x, Fin y => x <= y
  | _, _ => False
  end.

(** The accumulator of [calculate_content_bounds] after exactly the
    rectangle [b] was folded into it. *)
Definition holding (b : bounds) : TrimSvg.content_acc :=
  TrimSvg.ContentAcc (Fin (min_x b)) (Fin (min_y b))
    (Fin (max_x b)) (Fin (max_y b)) true.

Definition acc_equiv (a b : TrimSvg.content_acc) : Prop :=
  ext_equiv (TrimSvg.acc_min_x a) (TrimSvg.acc_min_x b)
  /\ ext_equiv (TrimSvg.acc_min_y a) (TrimSvg.acc_min_y b)
  /\ ext_equiv (TrimSvg.acc_max_x a) (TrimSvg.acc_max_x b)
  /\ ext_equiv (TrimSvg.acc_max_y a) (TrimSvg.acc_max_y b)
  /\ TrimSvg.has_content a = TrimSvg.has_content b.

(** The attribute written to the output file, if a file was written. *)
Definition written_attribute (out : result bool * file_system) (k : string)
  : option (option string) :=
  option_map (fun root => el_get root k) (snd out).

(** The accumulators are as at the start of the loop, or hold a
    rectangle. *)
Definition acc_reachable (a : TrimSvg.content_acc) : Prop :=
  a = TrimSvg.no_content \/ exists b, a = holding b.

(** Two outcomes of a walk that agree: the same exception, or lists of
    rectangles with equal coordinates. *)
Definition results_equiv (r1 r2 : result (list bounds)) : Prop :=
  match r1, r2 with
  | Ok l1, Ok l2 => Forall2 bounds_equiv l1 l2
  | Raise e1, Raise e2 => e1 = e2
  | _, _ => False
  end.

(** The outcome of a walk, every rectangle moved by [d]. *)
Definition shifted (d : Q * Q) (r : result (list bounds))
  : result (list bounds) :=
  match r with
  | Ok l => Ok (map (TrimSvgFixed.translate_bounds (fst d) (snd d)) l)
  | Raise e => Raise e
  end.

(** Walking the subtree of [e] under an offset that is [d] further gives
    the rectangles of the walk, moved by [d]. *)
Definition walk_translates (py_float : string -> result Q) (e : element)
  : Prop :=
  forall p q d : Q * Q,
    fst q == fst p + fst d ->
    snd q == snd p + snd d ->
    results_equiv
      (TrimSvgFixed.calculate_bounds_recursive py_float e q)
      (shifted d (TrimSvgFixed.calculate_bounds_recursive py_float e p)).

Definition acc_valid (a : TrimSvg.content_acc) : Prop :=
  ext_le (TrimSvg.acc_min_x a) (TrimSvg.acc_max_x a)
  /\ ext_le (TrimSvg.acc_min_y a) (TrimSvg.acc_max_y a).

(* ================================================================== *)
(** * Further vocabulary *)

(** The accumulators of [calculate_content_bounds] reach around [b]. *)
Definition acc_encloses (a : TrimSvg.content_acc) (b : bounds) : Prop :=
  ext_le (TrimSvg.acc_min_x a) (Fin (min_x b))
  /\ ext_le (Fin (max_x b)) (TrimSvg.acc_max_x a)
  /\ ext_le (TrimSvg.acc_min_y a) (Fin (min_y b))
  /\ ext_le (Fin (max_y b)) (TrimSvg.acc_max_y a).

(** The rectangle [m] reaches around [b]. *)
Definition encloses (m b : bounds) : Prop :=
  min_x m <= min_x b /\ max_x b <= max_x m
  /\ min_y m <= min_y b /\ max_y b <= max_y m.

(** [float] fails with nothing but the exceptions that the pairing loop of
    [get_path_bounds] catches. *)
Definition raises_only_caught (py_float : string -> result Q) : Prop :=
  forall s e, py_float s = Raise e -> TrimSvgFixed.caught e = true.

(** [s = pre + p] for some [pre]. *)
Definition has_suffix (s p : string) : Prop :=
  exists pre : string, s = (pre ++ p)%string.

(** Every collected x coordinate has its y coordinate. *)
Definition paired (st : TrimSvg.path_state) : Prop :=
  List.length (TrimSvg.x_coords st) = List.length (TrimSvg.y_coords st).

(** A piece of text cut out by the command pattern: a command letter and
    what follows it. *)
Definition is_command (cmd : string) : Prop :=
  exists c rest, cmd = String c rest /\ Re.command_char c = true.

(** [float] converts every token of the list. *)
Definition all_convert (py_float : string -> result Q)
  (tokens : list string) : bool :=
  forallb (fun token => is_ok (py_float token)) tokens.

(** The tokens [parse_path_bounds] hands to [float] for one piece cut
    out by the command pattern: the numbers of [cmd[1:].strip()]. *)
Definition command_tokens (cmd : string) : list string :=
  match cmd with
  | EmptyString => []
  | String _ rest => Re.findall Re.number (strip rest)
  end.

(** [float] converts every number token of every command of the path. *)
Definition operands_convert (py_float : string -> result Q)
  (path_data : string) : bool :=
  forallb (fun cmd => all_convert py_float (command_tokens cmd))
    (Re.findall Re.command path_data).

(** The attributes [trim_svg] writes on the root. *)
Definition written_keys : list string :=
  ["viewBox"; "width"; "height"]%string.


(** A root with [width="auto"], [height="auto"] and the namespaced
    attribute [inkscape:version="1.2"], whose key the parser expands. *)
Definition auto_size : element :=
  Element "svg"
    [("width", "auto"); ("height", "auto");
     ("{http://www.inkscape.org/namespaces/inkscape}version", "1.2")]%string
    [Element "rect"
       [("x", "0"); ("y", "0"); ("width", "100"); ("height", "100")]%string
       []].

(** Every character of [s] is in the class [p]. *)
Fixpoint all_in (p : ascii -> bool) (s : string) : Prop :=
  match s with
  | EmptyString => True
  | String c s' => p c = true /\ all_in p s'
  end.

(** The texts of the form of a pattern: what the pattern describes,
    whichever way a matcher finds it. *)
Fixpoint lang (r : Re.regex) (m : string) : Prop :=
  match r with
  | Re.Lit p => m = p
  | Re.Class p => exists c, m = String c EmptyString /\ p c = true
  | Re.Star p => all_in p m
  | Re.Plus p =>
      exists c m', m = String c m' /\ p c = true /\ all_in p m'
  | Re.Opt r' => m = EmptyString \/ lang r' m
  | Re.Seq r1 r2 =>
      exists m1 m2, m = (m1 ++ m2)%string /\ lang r1 m1 /\ lang r2 m2
  | Re.Group _ r' => lang r' m
  end.

(** The transform string [s] contains a translation of the form
    [translate(tx[, ty])]: some part of it is one, as a whole. *)
Definition contains_translation (s : string) : Prop :=
  exists pre m post : string,
    s = (pre ++ m ++ post)%string /\ lang Re.translate m.

(* ================================================================== *)
(** * Example documents *)

Module Examples.

Open Scope string_scope.

(** [<rect x="10" y="10" width="20" height="30"/>] *)
Definition rect_10_10_20_30 : element :=
  Element "rect"
    [("x", "10"); ("y", "10"); ("width", "20"); ("height", "30")] [].

(** [<rect x="0" y="0" width="-5" height="10"/>] *)
Definition rect_negative_width : element :=
  Element "rect"
    [("x", "0"); ("y", "0"); ("width", "-5"); ("height", "10")] [].

Definition square_path : string := "M0,0 L10,0 L10,10 L0,10 Z".

(** [<line x1="0" y1="0" x2="3" y2="4" width="-1"/>]: a line does not
    read the width it carries. *)
Definition line_with_width : element :=
  Element "line"
    [("x1", "0"); ("y1", "0"); ("x2", "3"); ("y2", "4"); ("width", "-1")] [].

(** [<svg><rect x="0" y="0" width="100" height="100"/></svg>]: aggregate
    bounds (0,0)-(100,100). *)
Definition square_100 : element :=
  Element "svg" []
    [Element "rect"
       [("x", "0"); ("y", "0"); ("width", "100"); ("height", "100")] []].

(** A small rectangle next to a [defs] block that holds a large one. *)
Definition with_defs : element :=
  Element "svg" []
    [Element "defs" []
       [Element "rect"
          [("x", "-50"); ("y", "-50"); ("width", "500"); ("height", "500")]
          []];
     rect_10_10_20_30].

(** The same document without the [defs] block. *)
Definition without_defs : element :=
  Element "svg" [] [rect_10_10_20_30].

(** [<g transform="translate(3,0)"><rect ... transform="translate(5,5)"/>
    </g>] under the root. *)
Definition nested_rect : element :=
  Element "rect"
    [("x", "10"); ("y", "10"); ("width", "20"); ("height", "30");
     ("transform", "translate(5,5)")] [].

Definition nested_translate : element :=
  Element "svg" []
    [Element "g" [("transform", "translate(3,0)")] [nested_rect]].

(** A relative smooth curve after a move, and its absolute twin. *)
Definition relative_smooth : string := "M10,10 s5,5 20,20".
Definition absolute_smooth : string := "M10,10 S5,5 20,20".

(** An arc after a move, absolute and relative. *)
Definition absolute_arc : string := "M0,0 A5,5 0 0 1 10,10".
Definition relative_arc : string := "M0,0 a5,5 0 0 1 10,10".

(** A rotation, alone and chained with a translation. *)
Definition rotated_rect : element :=
  Element "rect"
    [("x", "10"); ("y", "10"); ("width", "20"); ("height", "30");
     ("transform", "rotate(45)")] [].

Definition chained_transform : string := "rotate(45) translate(5,5)".

Definition chained_rect : element :=
  Element "rect"
    [("x", "10"); ("y", "10"); ("width", "20"); ("height", "30");
     ("transform", chained_transform)] [].

(** [<svg viewBox="auto"/>]: no shape at all. *)
Definition empty_auto_viewbox : element :=
  Element "svg" [("viewBox", "auto")] [].

(** [<svg/>] *)
Definition empty_svg : element := Element "svg" [] [].

(** [<svg><rect width="abc"/></svg>] and its rectangle. *)
Definition rect_bad_width : element :=
  Element "rect" [("x", "1"); ("width", "abc")] [].

Definition bad_width : element := Element "svg" [] [rect_bad_width].

(** [<polygon points="7"/>] and [<polygon points="1,2 3,4 5"/>] *)
Definition polygon_one_token : element :=
  Element "polygon" [("points", "7")] [].

Definition polygon_five_tokens : element :=
  Element "polygon" [("points", "1,2 3,4 5")] [].

Definition polyline_five_tokens : element :=
  Element "polyline" [("points", "1,2 3,4 5")] [].




End Examples.

(* ================================================================== *)
(** * Properties of [min] and [max] *)

Section MinMax.

Lemma Qltb_cases (a b : Q) :
  (Qltb a b = true /\ a < b) \/ (Qltb a b = false /\ b <= a).
Proof.
  unfold Qltb. destruct (a ?= b) eqn:E.
  - right. split; [reflexivity|]. apply Qeq_alt in E. rewrite E. apply Qle_refl.
  - left. split; [reflexivity|]. apply Qlt_alt. exact E.
  - right. split; [reflexivity|]. apply Qlt_le_weak, Qgt_alt. exact E.
Qed.

End MinMax.

(** Splits on every comparison of the goal and leaves linear arithmetic. *)
Ltac split_min_max :=
  unfold min2, max2 in *;
  repeat match goal with
    | |- context [Qltb ?a ?b] =>
        let E := fresh "E" in
        let H := fresh "H" in
        destruct (Qltb_cases a b) as [[E H] | [E H]];
        rewrite E in *; clear E
    | H0 : context [Qltb ?a ?b] |- _ =>
        let E := fresh "E" in
        let H := fresh "H" in
        destruct (Qltb_cases a b) as [[E H] | [E H]];
        rewrite E in *; clear E
    end.

(** The same for the comparisons of extended numbers. *)
Ltac split_ext :=
  repeat (simpl;
          match goal with
          | |- context [Qltb ?u ?v] =>
              let E := fresh "E" in
              let H := fresh "H" in
              destruct (Qltb_cases u v) as [[E H] | [E H]];
              rewrite E; clear E
          end);
  simpl; solve [exact I | lra].

Section MinMaxLists.

Lemma min2_le_l (a b : Q) : min2 a b <= a.
Proof. split_min_max; lra. Qed.

Lemma min2_le_r (a b : Q) : min2 a b <= b.
Proof. split_min_max; lra. Qed.

Lemma max2_ge_l (a b : Q) : a <= max2 a b.
Proof. split_min_max; lra. Qed.

Lemma max2_ge_r (a b : Q) : b <= max2 a b.
Proof. split_min_max; lra. Qed.

Lemma min2_comm (a b : Q) : min2 a b == min2 b a.
Proof. split_min_max; lra. Qed.

Lemma max2_comm (a b : Q) : max2 a b == max2 b a.
Proof. split_min_max; lra. Qed.

Lemma min2_assoc (a b c : Q) : min2 (min2 a b) c == min2 a (min2 b c).
Proof. split_min_max; lra. Qed.

Lemma max2_assoc (a b c : Q) : max2 (max2 a b) c == max2 a (max2 b c).
Proof. split_min_max; lra. Qed.

(** The scan of [min(l)] never goes above where it started, nor above an
    item it has seen. *)
Lemma fold_min2_le_start (l : list Q) (x : Q) : fold_left min2 l x <= x.
Proof.
  revert x. induction l as [|y l IH]; intros x; simpl.
  - apply Qle_refl.
  - eapply Qle_trans; [apply IH | apply min2_le_l].
Qed.

Lemma fold_min2_le_item (l : list Q) (x y : Q) :
  In y l -> fold_left min2 l x <= y.
Proof.
  revert x. induction l as [|z l IH]; intros x Hin; simpl in *.
  - contradiction.
  - destruct Hin as [-> | Hin].
    + eapply Qle_trans; [apply fold_min2_le_start | apply min2_le_r].
    + apply IH. exact Hin.
Qed.

Lemma fold_max2_ge_start (l : list Q) (x : Q) : x <= fold_left max2 l x.
Proof.
  revert x. induction l as [|y l IH]; intros x; simpl.
  - apply Qle_refl.
  - eapply Qle_trans; [apply max2_ge_l | apply IH].
Qed.

Lemma fold_max2_ge_item (l : list Q) (x y : Q) :
  In y l -> y <= fold_left max2 l x.
Proof.
  revert x. induction l as [|z l IH]; intros x Hin; simpl in *.
  - contradiction.
  - destruct Hin as [-> | Hin].
    + eapply Qle_trans; [apply max2_ge_r | apply fold_max2_ge_start].
    + apply IH. exact Hin.
Qed.

(** [min(l) <= y <= max(l)] for every item [y] of [l]. *)
Lemma min_list_le (l : list Q) (m y : Q) :
  min_list l = Ok m -> In y l -> m <= y.
Proof.
  destruct l as [|x l]; simpl; [discriminate|].
  intros [= <-] [-> | Hin].
  - apply fold_min2_le_start.
  - apply fold_min2_le_item. exact Hin.
Qed.

Lemma max_list_ge (l : list Q) (m y : Q) :
  max_list l = Ok m -> In y l -> y <= m.
Proof.
  destruct l as [|x l]; simpl; [discriminate|].
  intros [= <-] [-> | Hin].
  - apply fold_max2_ge_start.
  - apply fold_max2_ge_item. exact Hin.
Qed.

Lemma min_list_le_max_list (l : list Q) (mn mx : Q) :
  min_list l = Ok mn -> max_list l = Ok mx -> mn <= mx.
Proof.
  destruct l as [|x l]; simpl; [discriminate|].
  intros [= <-] [= <-].
  eapply Qle_trans; [apply fold_min2_le_start | apply fold_max2_ge_start].
Qed.

(** The scans commute with a translation. *)
Lemma min2_shift (a b t : Q) : min2 (a + t) (b + t) == min2 a b + t.
Proof. split_min_max; lra. Qed.

Lemma max2_shift (a b t : Q) : max2 (a + t) (b + t) == max2 a b + t.
Proof. split_min_max; lra. Qed.

End MinMaxLists.

(* ================================================================== *)
(** * The aggregation fold *)

Section Aggregation.

Lemma ext_min2_fin (a b : Q) : ext_min2 (Fin a) (Fin b) = Fin (min2 a b).
Proof. unfold ext_min2, min2. simpl. destruct (Qltb b a); reflexivity. Qed.

Lemma ext_max2_fin (a b : Q) : ext_max2 (Fin a) (Fin b) = Fin (max2 a b).
Proof. unfold ext_max2, max2. simpl. destruct (Qltb a b); reflexivity. Qed.

(** [min(inf, x) = x] and [max(-inf, x) = x]. *)
Lemma ext_min2_inf (a : Q) : ext_min2 PosInf (Fin a) = Fin a.
Proof. reflexivity. Qed.

Lemma ext_max2_inf (a : Q) : ext_max2 NegInf (Fin a) = Fin a.
Proof. reflexivity. Qed.

Lemma combine_no_content (A : bounds) :
  TrimSvg.combine TrimSvg.no_content A = holding A.
Proof. reflexivity. Qed.

Lemma combine_holding (A B : bounds) :
  TrimSvg.combine (holding A) B = holding (spec_combine A B).
Proof.
  unfold TrimSvg.combine, holding, spec_combine; simpl.
  rewrite !ext_min2_fin, !ext_max2_fin. reflexivity.
Qed.

Lemma merge_two (A B : bounds) :
  TrimSvgFixed.merge [A; B] = Ok (spec_combine A B).
Proof. reflexivity. Qed.

Lemma spec_combine_comm (A B : bounds) :
  bounds_equiv (spec_combine A B) (spec_combine B A).
Proof.
  unfold bounds_equiv, spec_combine; simpl.
  repeat split; (apply min2_comm || apply max2_comm).
Qed.

Lemma spec_combine_assoc (A B C : bounds) :
  bounds_equiv (spec_combine (spec_combine A B) C)
    (spec_combine A (spec_combine B C)).
Proof.
  unfold bounds_equiv, spec_combine; simpl.
  repeat split; (apply min2_assoc || apply max2_assoc).
Qed.

Lemma ext_min2_swap (a : ext) (x y : Q) :
  ext_equiv (ext_min2 (ext_min2 a (Fin x)) (Fin y))
    (ext_min2 (ext_min2 a (Fin y)) (Fin x)).
Proof. destruct a; unfold ext_min2; split_ext. Qed.

Lemma ext_max2_swap (a : ext) (x y : Q) :
  ext_equiv (ext_max2 (ext_max2 a (Fin x)) (Fin y))
    (ext_max2 (ext_max2 a (Fin y)) (Fin x)).
Proof. destruct a; unfold ext_max2; split_ext. Qed.

(** The order in which two rectangles are folded in does not matter. *)
Lemma combine_swap (acc : TrimSvg.content_acc) (A B : bounds) :
  acc_equiv (TrimSvg.combine (TrimSvg.combine acc A) B)
    (TrimSvg.combine (TrimSvg.combine acc B) A).
Proof.
  unfold acc_equiv, TrimSvg.combine; simpl.
  repeat split; (apply ext_min2_swap || apply ext_max2_swap).
Qed.

(** The loop keeps the accumulators either untouched or holding a
    rectangle: [has_content] and the infinities exclude each other. *)
Lemma combine_reachable (acc : TrimSvg.content_acc) (b : bounds) :
  acc_reachable acc -> exists b', TrimSvg.combine acc b = holding b'.
Proof.
  intros [-> | [a ->]].
  - exists b. apply combine_no_content.
  - exists (spec_combine a b). apply combine_holding.
Qed.

Lemma aggregate_reachable
  (py_float : string -> result Q) (elements : list element)
  (acc acc' : TrimSvg.content_acc) :
  acc_reachable acc ->
  TrimSvg.aggregate py_float elements acc = Ok acc' ->
  acc_reachable acc'.
Proof.
  revert acc. induction elements as [|e elements IH]; intros acc Hacc; simpl.
  - intros [= <-]. exact Hacc.
  - destruct (TrimSvg.is_non_visual e); [apply IH; exact Hacc|].
    destruct (TrimSvg.get_element_bounds py_float e) as [[b|]|]; simpl;
      [| apply IH; exact Hacc | discriminate].
    apply IH. right. apply combine_reachable. exact Hacc.
Qed.

(** So the result of [calculate_content_bounds] is [None] exactly when
    nothing was folded in, and the padded rectangle otherwise. *)
Lemma calculate_content_bounds_cases
  (py_float : string -> result Q) (root : element) (r : option TrimSvg.view_box) :
  TrimSvg.calculate_content_bounds py_float root = Ok r ->
  (r = None
   /\ TrimSvg.aggregate py_float (TrimSvg.iter root) TrimSvg.no_content
      = Ok TrimSvg.no_content)
  \/ (exists b,
        TrimSvg.aggregate py_float (TrimSvg.iter root) TrimSvg.no_content
        = Ok (holding b)
        /\ r = Some (TrimSvg.ViewBox
                       (min_x b - TrimSvg.padding)
                       (min_y b - TrimSvg.padding)
                       ((max_x b - min_x b) + 2 * TrimSvg.padding)
                       ((max_y b - min_y b) + 2 * TrimSvg.padding))).
Proof.
  unfold TrimSvg.calculate_content_bounds.
  destruct (TrimSvg.aggregate py_float _ _) as [acc|] eqn:E; simpl;
    [|discriminate].
  intros [= <-].
  destruct (aggregate_reachable py_float _ _ _ (or_introl eq_refl) E)
    as [-> | [b ->]].
  - left. split; reflexivity.
  - right. exists b. split; reflexivity.
Qed.

End Aggregation.

(** C8: combining two rectangles in the aggregation fold gives the
    componentwise minimum of the lower corners and maximum of the upper
    corners, in the running accumulators of [calculate_content_bounds] as in
    the reductions of the other [trim_svg]; the combination is commutative
    and associative, and the "no content" accumulator is its identity:
    folding a rectangle into it leaves exactly that rectangle. *)
Theorem C8_aggregation_fold
  (A B C : bounds) (acc : TrimSvg.content_acc) :
  TrimSvg.combine (TrimSvg.combine TrimSvg.no_content A) B
  = holding (spec_combine A B)
  /\ TrimSvgFixed.merge [A; B] = Ok (spec_combine A B)
  /\ bounds_equiv (spec_combine A B) (spec_combine B A)
  /\ acc_equiv (TrimSvg.combine (TrimSvg.combine acc A) B)
       (TrimSvg.combine (TrimSvg.combine acc B) A)
  /\ bounds_equiv (spec_combine (spec_combine A B) C)
       (spec_combine A (spec_combine B C))
  /\ TrimSvg.combine TrimSvg.no_content A = holding A
  /\ TrimSvgFixed.merge [A] = Ok A.
Proof.
  split; [rewrite combine_no_content; apply combine_holding|].
  split; [apply merge_two|].
  split; [apply spec_combine_comm|].
  split; [apply combine_swap|].
  split; [apply spec_combine_assoc|].
  split; [apply combine_no_content|].
  destruct A; reflexivity.
Qed.

(* ================================================================== *)
(** * The ordering invariant of rectangles *)

Section Ordering.

Variable py_float : string -> result Q.

Lemma points_valid (xs ys : list Q) :
  yields_valid (TrimSvg.bounds_of_points xs ys).
Proof.
  destruct xs as [|x xs], ys as [|y ys]; simpl; try exact I.
  split; simpl.
  - eapply Qle_trans; [apply fold_min2_le_start | apply fold_max2_ge_start].
  - eapply Qle_trans; [apply fold_min2_le_start | apply fold_max2_ge_start].
Qed.

Lemma fixed_points_valid (xs ys : list Q) :
  yields_valid (TrimSvgFixed.bounds_of_points xs ys).
Proof. exact (points_valid xs ys). Qed.

Lemma parse_path_bounds_valid (d : string) :
  yields_valid (TrimSvg.parse_path_bounds py_float d).
Proof.
  unfold TrimSvg.parse_path_bounds.
  destruct (TrimSvg.run_commands py_float _ _); simpl; [|exact I].
  apply points_valid.
Qed.

Lemma get_path_bounds_valid (d : string) :
  yields_valid (TrimSvgFixed.get_path_bounds py_float d).
Proof.
  unfold TrimSvgFixed.get_path_bounds.
  destruct (TrimSvgFixed.pair_numbers py_float _ _ _); simpl; [|exact I].
  apply fixed_points_valid.
Qed.

Lemma translate_valid (tx ty : Q) (b : bounds) :
  valid b -> valid (TrimSvg.translate_bounds tx ty b).
Proof. unfold valid; simpl; intros [Hx Hy]; split; lra. Qed.

Lemma float_attr_size (sh : shape) (e : element) (k : string) (w : Q) :
  sizes_not_negative py_float sh e ->
  In k (size_attributes_of sh) ->
  TrimSvg.float_attr py_float e k = Ok w -> 0 <= w.
Proof.
  unfold sizes_not_negative, TrimSvg.float_attr.
  intros Hall Hin. rewrite Forall_forall in Hall. specialize (Hall k Hin).
  destruct (el_get e k) as [v|].
  - intros E. rewrite E in Hall. exact Hall.
  - intros [= <-]. apply Qle_refl.
Qed.

(** Runs through a chain of [float(element.get(k, 0))] conversions,
    keeping what each one returned. *)
Ltac step_float_attrs :=
  repeat match goal with
    | |- context [TrimSvg.float_attr ?f ?e ?k] =>
        let E := fresh "E" in
        destruct (TrimSvg.float_attr f e k) eqn:E; simpl; [|exact I]
    | |- context [TrimSvgFixed.float_attr ?f ?e ?k] =>
        let E := fresh "E" in
        destruct (TrimSvgFixed.float_attr f e k) eqn:E; simpl;
        [|exact I]
    end.

Ltac size_facts Hsizes :=
  repeat match goal with
    | E : TrimSvg.float_attr _ _ ?k = Ok ?w |- _ =>
        lazymatch goal with
        | _ : 0 <= w |- _ => fail
        | _ =>
            assert (0 <= w)
              by (eapply float_attr_size; [exact Hsizes | | exact E];
                  simpl; tauto)
        end
    end.

Lemma local_bounds_valid (e : element) :
  sizes_not_negative py_float (TrimSvg.shape_of (tag e)) e ->
  yields_valid (TrimSvg.local_bounds py_float e).
Proof.
  unfold TrimSvg.local_bounds.
  destruct (TrimSvg.shape_of (tag e)); intros Hsizes.
  - step_float_attrs. size_facts Hsizes. split; simpl; lra.
  - step_float_attrs. size_facts Hsizes. split; simpl; lra.
  - step_float_attrs. size_facts Hsizes. split; simpl; lra.
  - destruct (truthy _); [apply parse_path_bounds_valid | exact I].
  - step_float_attrs. split; simpl; split_min_max; lra.
  - destruct (truthy _); [|exact I].
    destruct (map_result py_float _); simpl; [|exact I].
    apply points_valid.
  - exact I.
Qed.

Lemma get_element_bounds_valid (e : element) :
  sizes_not_negative py_float (TrimSvg.shape_of (tag e)) e ->
  yields_valid (TrimSvg.get_element_bounds py_float e).
Proof.
  intros Hsizes. unfold TrimSvg.get_element_bounds.
  pose proof (local_bounds_valid e Hsizes) as Hlocal.
  destruct (TrimSvg.local_bounds py_float e) as [[b|]|]; simpl in *;
    try exact I.
  - destruct (el_get e "transform") as [t|]; simpl; [|exact Hlocal].
    destruct (truthy t); simpl; [|exact Hlocal].
    destruct (Re.search Re.translate t) as [[m caps]|]; simpl;
      [|exact Hlocal].
    destruct (TrimSvg.match_offset py_float caps) as [[tx ty]|]; simpl;
      [|exact I].
    apply translate_valid. exact Hlocal.
  - destruct (el_get e "transform"); exact I.
Qed.

Lemma own_bounds_valid (e : element) (tx ty : Q) :
  sizes_not_negative py_float
    (TrimSvgFixed.shape_of (TrimSvgFixed.local_name e)) e ->
  yields_all_valid (TrimSvgFixed.own_bounds py_float e tx ty).
Proof.
  unfold TrimSvgFixed.own_bounds.
  change (TrimSvgFixed.float_attr py_float e)
    with (TrimSvg.float_attr py_float e).
  destruct (TrimSvgFixed.shape_of _); intros Hsizes.
  - step_float_attrs. size_facts Hsizes.
    constructor; [|constructor]. split; simpl; lra.
  - step_float_attrs. size_facts Hsizes.
    constructor; [|constructor]. split; simpl; lra.
  - step_float_attrs. size_facts Hsizes.
    constructor; [|constructor]. split; simpl; lra.
  - destruct (truthy _); simpl; [|constructor].
    pose proof (get_path_bounds_valid (el_get_default e "d" "")) as Hpath.
    destruct (TrimSvgFixed.get_path_bounds py_float _) as [[b|]|];
      simpl in *; try exact I; [|constructor].
    constructor; [|constructor]. apply translate_valid. exact Hpath.
  - step_float_attrs.
    constructor; [|constructor]. split; simpl; split_min_max; lra.
  - destruct (truthy _); simpl; [|constructor].
    destruct (map_result py_float _) as [coords|]; simpl; [|exact I].
    match goal with
    | |- context [if ?c then _ else _] => destruct c
    end; simpl; [|constructor].
    match goal with
    | |- context [TrimSvgFixed.bounds_of_points ?xs ?ys] =>
        pose proof (fixed_points_valid xs ys) as Hpts;
        destruct (TrimSvgFixed.bounds_of_points xs ys) as [[b|]|]
    end; simpl in *; try exact I; [|constructor].
    constructor; [exact Hpts | constructor].
  - constructor.
Qed.

(** A branch that reads no size asks nothing. *)
Lemma no_size_to_check (sh : shape) (e : element) :
  In sh [Path; Line; Poly; Other] -> sizes_not_negative py_float sh e.
Proof.
  intros Hin. unfold sizes_not_negative.
  destruct sh; simpl in Hin; try constructor;
    repeat (destruct Hin as [Hin | Hin]; try discriminate); contradiction.
Qed.

(** Folding a valid rectangle in gives ordered accumulators, whatever they
    held before. *)
Lemma combine_valid (acc : TrimSvg.content_acc) (B : bounds) :
  valid B -> acc_valid (TrimSvg.combine acc B).
Proof.
  intros [Hx Hy]. unfold acc_valid, TrimSvg.combine; simpl.
  destruct acc as [a b c d h]; simpl.
  split.
  - destruct a, c; unfold ext_min2, ext_max2; split_ext.
  - destruct b, d; unfold ext_min2, ext_max2; split_ext.
Qed.

Lemma merge_valid (b : bounds) (l : list bounds) :
  valid b ->
  match TrimSvgFixed.merge (b :: l) with
  | Ok m => valid m
  | Raise _ => False
  end.
Proof.
  intros [Hx Hy]. simpl. split; simpl.
  - eapply Qle_trans; [apply fold_min2_le_start|].
    eapply Qle_trans; [exact Hx | apply fold_max2_ge_start].
  - eapply Qle_trans; [apply fold_min2_le_start|].
    eapply Qle_trans; [exact Hy | apply fold_max2_ge_start].
Qed.

End Ordering.

(** Decides a closed statement about concrete rationals or results. *)
Ltac by_computation :=
  vm_compute;
  repeat match goal with
    | |- _ /\ _ => split
    | |- Forall _ _ => constructor
    end;
  solve [ reflexivity | exact I | intro; discriminate ].

(** C9 (as amended): the rectangles of the curve parsers, and those of
    lines, polygons and polylines, have their corners in order
    ([min_x <= max_x] and [min_y <= max_y]) whatever their attributes; so
    have those of rect, circle and ellipse nodes when the sizes the node
    reads (width and height; r; rx and ry) are not negative; translation
    by an offset and both aggregation folds preserve that order. *)
Theorem C9_rectangles_are_ordered
  (py_float : string -> result Q) (e : element) (d : string) (tx ty : Q)
  (A B : bounds) (acc : TrimSvg.content_acc) (l : list bounds) :
  yields_valid (TrimSvg.parse_path_bounds py_float d)
  /\ yields_valid (TrimSvgFixed.get_path_bounds py_float d)
  /\ (In (TrimSvg.shape_of (tag e)) [Path; Line; Poly; Other] ->
      yields_valid (TrimSvg.local_bounds py_float e)
      /\ yields_valid (TrimSvg.get_element_bounds py_float e))
  /\ (In (TrimSvgFixed.shape_of (TrimSvgFixed.local_name e))
        [Path; Line; Poly; Other] ->
      yields_all_valid (TrimSvgFixed.own_bounds py_float e tx ty))
  /\ (sizes_not_negative py_float (TrimSvg.shape_of (tag e)) e ->
      yields_valid (TrimSvg.local_bounds py_float e)
      /\ yields_valid (TrimSvg.get_element_bounds py_float e))
  /\ (sizes_not_negative py_float
        (TrimSvgFixed.shape_of (TrimSvgFixed.local_name e)) e ->
      yields_all_valid (TrimSvgFixed.own_bounds py_float e tx ty))
  /\ (valid A ->
      valid (TrimSvg.translate_bounds tx ty A)
      /\ valid (TrimSvgFixed.translate_bounds tx ty A)
      /\ acc_valid (TrimSvg.combine acc A)
      /\ match TrimSvgFixed.merge (A :: l) with
         | Ok m => valid m
         | Raise _ => False
         end)
  /\ (valid A -> valid B -> valid (spec_combine A B)).
Proof.
  split; [apply parse_path_bounds_valid|].
  split; [apply get_path_bounds_valid|].
  split.
  { intros Hin. pose proof (no_size_to_check py_float _ e Hin) as Hsizes.
    split; [apply local_bounds_valid | apply get_element_bounds_valid];
      exact Hsizes. }
  split.
  { intros Hin. apply own_bounds_valid.
    exact (no_size_to_check py_float _ e Hin). }
  split.
  { intros Hsizes.
    split; [apply local_bounds_valid | apply get_element_bounds_valid];
      exact Hsizes. }
  split; [intros Hsizes; apply own_bounds_valid; exact Hsizes|].
  split.
  - intros HA.
    split; [apply translate_valid; exact HA|].
    split; [apply translate_valid; exact HA|].
    split; [apply combine_valid; exact HA|].
    apply merge_valid. exact HA.
  - intros [HAx HAy] [HBx HBy]. split; simpl; split_min_max; lra.
Qed.

Lemma C9_witness :
  sizes_not_negative decimal_float Rect Examples.rect_10_10_20_30
  /\ valid (Bounds 0 10 0 10)
  /\ valid (Bounds 5 20 (-3) 4)
  /\ yields_valid
       (TrimSvg.get_element_bounds decimal_float Examples.rect_10_10_20_30)
  /\ yields_all_valid
       (TrimSvgFixed.own_bounds decimal_float Examples.rect_10_10_20_30 3 4)
  /\ yields_valid
       (TrimSvg.get_element_bounds decimal_float Examples.line_with_width)
  /\ yields_all_valid
       (TrimSvgFixed.own_bounds decimal_float Examples.line_with_width 3 4)
  /\ yields_valid
       (TrimSvg.parse_path_bounds decimal_float Examples.square_path)
  /\ valid (TrimSvg.translate_bounds 3 4 (Bounds 0 10 0 10))
  /\ acc_valid (TrimSvg.combine TrimSvg.no_content (Bounds 0 10 0 10))
  /\ valid (spec_combine (Bounds 0 10 0 10) (Bounds 5 20 (-3) 4)).
Proof.
  assert (H1 : sizes_not_negative decimal_float Rect
                 Examples.rect_10_10_20_30)
    by (unfold sizes_not_negative; by_computation).
  assert (H2 : valid (Bounds 0 10 0 10)) by by_computation.
  assert (H3 : valid (Bounds 5 20 (-3) 4)) by by_computation.
  destruct (C9_rectangles_are_ordered decimal_float
              Examples.rect_10_10_20_30 Examples.square_path 3 4
              (Bounds 0 10 0 10) (Bounds 5 20 (-3) 4) TrimSvg.no_content [])
    as (Hpath & _ & _ & _ & Hshape & Hshape' & Hmove & Hfold).
  destruct (C9_rectangles_are_ordered decimal_float
              Examples.line_with_width Examples.square_path 3 4
              (Bounds 0 10 0 10) (Bounds 5 20 (-3) 4) TrimSvg.no_content [])
    as (_ & _ & Hline & Hline' & _).
  destruct (Hshape H1) as (_ & Hget).
  destruct (Hmove H2) as (Htr & _ & Hacc & _).
  split; [exact H1|]. split; [exact H2|]. split; [exact H3|].
  split; [exact Hget|]. split; [exact (Hshape' H1)|].
  split.
  { apply Hline. vm_compute. tauto. }
  split.
  { apply Hline'. vm_compute. tauto. }
  split; [exact Hpath|]. split; [exact Htr|]. split; [exact Hacc|].
  exact (Hfold H2 H3).
Defined.

(** C9, as stated, fails: a [rect] with a negative width gets a rectangle
    whose [max_x] is below its [min_x], in both scripts. *)
Lemma C9_counterexample :
  TrimSvg.get_element_bounds decimal_float Examples.rect_negative_width
  = Ok (Some (Bounds 0 (-5) 0 10))
  /\ TrimSvgFixed.own_bounds decimal_float Examples.rect_negative_width 0 0
     = Ok [Bounds 0 (-5) 0 10]
  /\ ~ valid (Bounds 0 (-5) 0 10).
Proof.
  split; [vm_compute; reflexivity|].
  split; [vm_compute; reflexivity|].
  intros [H _]. vm_compute in H. apply H. reflexivity.
Qed.

(* ================================================================== *)
(** * The viewport *)

Section Viewport.

(** [calculate_content_bounds] of [trim_svg.py] pads as the contract
    says. *)
Lemma padded_holding (b : bounds) :
  TrimSvg.padded (holding b)
  = Some (TrimSvg.ViewBox
            (min_x b - TrimSvg.padding) (min_y b - TrimSvg.padding)
            ((max_x b - min_x b) + 2 * TrimSvg.padding)
            ((max_y b - min_y b) + 2 * TrimSvg.padding)).
Proof. reflexivity. Qed.

(** [trim_svg] of [trim_svg_fixed.py] subtracts the padding from [min_x]
    before it computes the width: three paddings are added, not two. *)
Lemma add_padding_width (b : bounds) :
  TrimSvgFixed.vb_x (TrimSvgFixed.add_padding b)
  = min_x b - TrimSvgFixed.padding
  /\ TrimSvgFixed.vb_y (TrimSvgFixed.add_padding b)
     = min_y b - TrimSvgFixed.padding
  /\ TrimSvgFixed.vb_width (TrimSvgFixed.add_padding b)
     == (max_x b - min_x b) + 3 * TrimSvgFixed.padding
  /\ TrimSvgFixed.vb_height (TrimSvgFixed.add_padding b)
     == (max_y b - min_y b) + 3 * TrimSvgFixed.padding.
Proof.
  unfold TrimSvgFixed.add_padding; simpl.
  repeat split; try reflexivity; ring.
Qed.

End Viewport.

(** C1: for aggregate bounds (0,0)-(100,100) and padding 10 the viewport
    should be (-10, -10, 120, 120).  [trim_svg_fixed.py] writes width and
    height 130: it adds the padding three times, for every rectangle.
    [trim_svg.py], with its padding 5, follows the contract. *)
Theorem C1_fixed_script_adds_three_paddings :
  TrimSvgFixed.merge [Bounds 0 100 0 100] = Ok (Bounds 0 100 0 100)
  /\ TrimSvgFixed.add_padding (Bounds 0 100 0 100)
     = TrimSvgFixed.ViewBox (-10) (-10) 130 130
  /\ written_attribute
       (TrimSvgFixed.trim_svg decimal_float decimal_repr
          Examples.square_100 None) "viewBox"
     = Some (Some "-10.0 -10.0 130.0 130.0"%string)
  /\ (forall b : bounds,
        TrimSvgFixed.vb_width (TrimSvgFixed.add_padding b)
        == (max_x b - min_x b) + 3 * TrimSvgFixed.padding
        /\ TrimSvgFixed.vb_height (TrimSvgFixed.add_padding b)
           == (max_y b - min_y b) + 3 * TrimSvgFixed.padding)
  /\ (forall b : bounds,
        TrimSvg.padded (holding b)
        = Some (TrimSvg.ViewBox
                  (min_x b - TrimSvg.padding) (min_y b - TrimSvg.padding)
                  ((max_x b - min_x b) + 2 * TrimSvg.padding)
                  ((max_y b - min_y b) + 2 * TrimSvg.padding)))
  /\ written_attribute
       (TrimSvg.trim_svg decimal_float decimal_repr
          Examples.square_100 None) "viewBox"
     = Some (Some "-5.0 -5.0 110.0 110.0"%string).
Proof.
  split; [reflexivity|].
  split; [vm_compute; reflexivity|].
  split; [vm_compute; reflexivity|].
  split; [intros b; apply add_padding_width|].
  split; [intros b; apply padded_holding|].
  vm_compute; reflexivity.
Qed.

(* ================================================================== *)
(** * The tree walk *)

Section TreeWalk.

Variable py_float : string -> result Q.

(** The loop over the children of [trim_svg_fixed.py] passes over a
    non-visual child without looking into it. *)
Lemma process_children_skips
  (recurse : element -> result (list bounds))
  (before after : list element) (child : element) (bounds_list : list bounds) :
  TrimSvgFixed.is_non_visual_tag (TrimSvgFixed.local_name child) = true ->
  TrimSvgFixed.process_children recurse (before ++ child :: after) bounds_list
  = TrimSvgFixed.process_children recurse (before ++ after) bounds_list.
Proof.
  intros Hskip. revert bounds_list.
  induction before as [|c before IH]; intros bounds_list; simpl.
  - rewrite Hskip. reflexivity.
  - destruct (TrimSvgFixed.is_non_visual_tag (TrimSvgFixed.local_name c)).
    + apply IH.
    + destruct (recurse c); simpl; [apply IH | reflexivity].
Qed.

(** Whatever a non-visual child contains, the rectangles of the parent are
    those of the parent without that child. *)
Lemma fixed_walk_skips_subtree
  (t : string) (a : attrib) (before after : list element) (child : element)
  (parent_transform : Q * Q) :
  TrimSvgFixed.is_non_visual_tag (TrimSvgFixed.local_name child) = true ->
  TrimSvgFixed.calculate_bounds_recursive py_float
    (Element t a (before ++ child :: after)) parent_transform
  = TrimSvgFixed.calculate_bounds_recursive py_float
      (Element t a (before ++ after)) parent_transform.
Proof.
  intros Hskip. simpl.
  unfold el_get_default, el_get; simpl.
  destruct (TrimSvgFixed.parse_transform py_float _); simpl; [|reflexivity].
  unfold TrimSvgFixed.own_bounds, TrimSvgFixed.local_name, el_get_default,
    TrimSvgFixed.float_attr, el_get; simpl.
  match goal with
  | |- Py.bind ?m _ = Py.bind ?m _ => destruct m; simpl; [|reflexivity]
  end.
  apply process_children_skips. exact Hskip.
Qed.

End TreeWalk.

(* ================================================================== *)
(** * Translations accumulate down the tree *)

Section Accumulation.

Variable py_float : string -> result Q.

(** Induction over documents: a property of the children carries over to
    the node. *)
Lemma element_induction (P : element -> Prop) :
  (forall t a cs, Forall P cs -> P (Element t a cs)) ->
  forall e, P e.
Proof.
  intros Hnode. fix IH 1. intros [t a cs]. apply Hnode.
  induction cs as [|c cs IHcs]; constructor; [apply IH | exact IHcs].
Qed.

Lemma fold_min2_shift (l : list Q) (a a' t t' d : Q) :
  t' == t + d -> a' == a + d ->
  fold_left min2 (map (fun c => c + t') l) a'
  == fold_left min2 (map (fun c => c + t) l) a + d.
Proof.
  intros Ht. revert a a'. induction l as [|x l IH]; intros a a' Ha; simpl.
  - exact Ha.
  - apply IH. split_min_max; lra.
Qed.

Lemma fold_max2_shift (l : list Q) (a a' t t' d : Q) :
  t' == t + d -> a' == a + d ->
  fold_left max2 (map (fun c => c + t') l) a'
  == fold_left max2 (map (fun c => c + t) l) a + d.
Proof.
  intros Ht. revert a a'. induction l as [|x l IH]; intros a a' Ha; simpl.
  - exact Ha.
  - apply IH. split_min_max; lra.
Qed.

(** The rectangle of shifted points is the shifted rectangle. *)
Lemma bounds_of_points_shift (xs ys : list Q) (tx ty tx' ty' dx dy : Q) :
  tx' == tx + dx -> ty' == ty + dy ->
  match TrimSvgFixed.bounds_of_points
          (map (fun c => c + tx') xs) (map (fun c => c + ty') ys),
        TrimSvgFixed.bounds_of_points
          (map (fun c => c + tx) xs) (map (fun c => c + ty) ys)
  with
  | Ok (Some b'), Ok (Some b) =>
      bounds_equiv b' (TrimSvgFixed.translate_bounds dx dy b)
  | Ok None, Ok None => True
  | _, _ => False
  end.
Proof.
  intros Hx Hy. destruct xs as [|x xs], ys as [|y ys]; simpl; try exact I.
  unfold bounds_equiv; simpl.
  repeat split;
    (apply fold_min2_shift || apply fold_max2_shift); trivial; lra.
Qed.

Lemma own_bounds_shift (e : element) (tx ty tx' ty' dx dy : Q) :
  tx' == tx + dx -> ty' == ty + dy ->
  results_equiv (TrimSvgFixed.own_bounds py_float e tx' ty')
    (shifted (dx, dy) (TrimSvgFixed.own_bounds py_float e tx ty)).
Proof.
  intros Hx Hy. unfold TrimSvgFixed.own_bounds.
  destruct (TrimSvgFixed.shape_of _).
  - repeat (destruct (TrimSvgFixed.float_attr py_float e _); simpl;
            [|reflexivity]).
    constructor; [|constructor]. unfold bounds_equiv; simpl.
    repeat split; lra.
  - repeat (destruct (TrimSvgFixed.float_attr py_float e _); simpl;
            [|reflexivity]).
    constructor; [|constructor]. unfold bounds_equiv; simpl.
    repeat split; lra.
  - repeat (destruct (TrimSvgFixed.float_attr py_float e _); simpl;
            [|reflexivity]).
    constructor; [|constructor]. unfold bounds_equiv; simpl.
    repeat split; lra.
  - destruct (truthy _); simpl; [|constructor].
    destruct (TrimSvgFixed.get_path_bounds py_float _) as [[b|]|]; simpl;
      [| constructor | reflexivity].
    constructor; [|constructor]. unfold bounds_equiv; simpl.
    repeat split; lra.
  - repeat (destruct (TrimSvgFixed.float_attr py_float e _); simpl;
            [|reflexivity]).
    constructor; [|constructor]. unfold bounds_equiv; simpl.
    repeat split; lra.
  - destruct (truthy _); simpl; [|constructor].
    destruct (map_result py_float _) as [coords|]; simpl; [|reflexivity].
    match goal with
    | |- context [if ?c then _ else _] => destruct c
    end; [|constructor].
    pose proof (bounds_of_points_shift (evens coords) (odds coords)
                  tx ty tx' ty' dx dy Hx Hy) as H.
    destruct (TrimSvgFixed.bounds_of_points
                (map (fun c => c + tx') (evens coords))
                (map (fun c => c + ty') (odds coords))) as [[b'|]|];
      destruct (TrimSvgFixed.bounds_of_points
                  (map (fun c => c + tx) (evens coords))
                  (map (fun c => c + ty) (odds coords))) as [[b|]|];
      simpl in *; try contradiction;
      [constructor; [exact H | constructor] | constructor].
  - constructor.
Qed.

Lemma process_children_shift
  (cs : list element) (p q d : Q * Q) (lp lq : list bounds) :
  Forall (walk_translates py_float) cs ->
  fst q == fst p + fst d ->
  snd q == snd p + snd d ->
  Forall2 bounds_equiv lq
    (map (TrimSvgFixed.translate_bounds (fst d) (snd d)) lp) ->
  results_equiv
    (TrimSvgFixed.process_children
       (fun c => TrimSvgFixed.calculate_bounds_recursive py_float c q) cs lq)
    (shifted d
       (TrimSvgFixed.process_children
          (fun c => TrimSvgFixed.calculate_bounds_recursive py_float c p)
          cs lp)).
Proof.
  intros Hcs Hx Hy. revert lp lq.
  induction Hcs as [|c cs Hc _ IH]; intros lp lq Hl; simpl.
  - exact Hl.
  - destruct (TrimSvgFixed.is_non_visual_tag _); [apply IH; exact Hl|].
    specialize (Hc p q d Hx Hy).
    destruct (TrimSvgFixed.calculate_bounds_recursive py_float c q)
      as [lcq|eq];
      destruct (TrimSvgFixed.calculate_bounds_recursive py_float c p)
      as [lcp|ep]; simpl in Hc |- *; try contradiction.
    + apply IH. rewrite map_app. apply Forall2_app; assumption.
    + exact Hc.
Qed.

(** Every node hands its children the offset it received plus its own
    translation, so the offsets of the ancestors add up: an inherited
    offset moves every rectangle of the subtree by exactly that offset. *)
Lemma fixed_walk_translates (e : element) : walk_translates py_float e.
Proof.
  induction e as [t a cs IH] using element_induction.
  intros p q d Hx Hy. simpl.
  destruct (TrimSvgFixed.parse_transform py_float _) as [offset|]; simpl;
    [|reflexivity].
  pose proof (own_bounds_shift (Element t a cs)
                (fst p + fst offset) (snd p + snd offset)
                (fst q + fst offset) (snd q + snd offset)
                (fst d) (snd d)) as Hown.
  destruct (TrimSvgFixed.own_bounds py_float _ (fst q + fst offset) _)
    as [lq|eq];
    destruct (TrimSvgFixed.own_bounds py_float _ (fst p + fst offset) _)
    as [lp|ep]; simpl in Hown |- *;
    try (exfalso; apply Hown; lra).
  - apply process_children_shift; simpl; try lra; [exact IH|].
    apply Hown; lra.
  - apply Hown; lra.
Qed.

(** In particular the walk under the offset [p] is the walk from the
    origin, moved by [p]. *)
Lemma fixed_walk_from_origin (e : element) (p : Q * Q) :
  results_equiv
    (TrimSvgFixed.calculate_bounds_recursive py_float e p)
    (shifted p (TrimSvgFixed.calculate_bounds_recursive py_float e (0, 0))).
Proof. apply fixed_walk_translates; simpl; lra. Qed.

End Accumulation.

(** C2: a rectangle inside a [defs] node must not change the aggregate.
    [trim_svg.py] only passes over the [defs] node itself and still
    aggregates the rectangle below it, so the large rectangle of the
    [defs] block decides the viewport.  [trim_svg_fixed.py] leaves the
    subtree out: for every node, a non-visual child can be removed with
    all it contains without changing the rectangles of the walk. *)
Theorem C2_defs_content_is_aggregated_by_flat_walk :
  TrimSvg.calculate_content_bounds decimal_float Examples.with_defs
  = Ok (Some (TrimSvg.ViewBox (-55) (-55) 510 510))
  /\ TrimSvg.calculate_content_bounds decimal_float Examples.without_defs
     = Ok (Some (TrimSvg.ViewBox 5 5 30 40))
  /\ TrimSvgFixed.calculate_bounds_recursive decimal_float
       Examples.with_defs (0, 0)
     = Ok [Bounds 10 30 10 40]
  /\ TrimSvgFixed.calculate_bounds_recursive decimal_float
       Examples.without_defs (0, 0)
     = Ok [Bounds 10 30 10 40]
  /\ (forall (py_float : string -> result Q) (t : string) (a : attrib)
        (before after : list element) (child : element) (p : Q * Q),
        TrimSvgFixed.is_non_visual_tag (TrimSvgFixed.local_name child) = true ->
        TrimSvgFixed.calculate_bounds_recursive py_float
          (Element t a (before ++ child :: after)) p
        = TrimSvgFixed.calculate_bounds_recursive py_float
            (Element t a (before ++ after)) p).
Proof.
  split; [vm_compute; reflexivity|].
  split; [vm_compute; reflexivity|].
  split; [vm_compute; reflexivity|].
  split; [vm_compute; reflexivity|].
  intros py_float t a before after child p Hskip.
  apply fixed_walk_skips_subtree. exact Hskip.
Qed.

(** C3: a node with [translate(5,5)] under a parent with [translate(3,0)]
    must be shifted by (8,5).  [trim_svg.py] applies the translation of the
    node alone and yields (15,15)-(35,45) for the rectangle (10,10)-(30,40).
    [trim_svg_fixed.py] yields (18,15)-(38,45), and in general adds the
    offsets up: the walk of a subtree under an inherited offset is the walk
    from the origin with every rectangle moved by that offset. *)
Theorem C3_ancestor_translation_is_ignored_by_flat_walk :
  TrimSvgFixed.calculate_bounds_recursive decimal_float
    Examples.nested_translate (0, 0)
  = Ok [Bounds 18 38 15 45]
  /\ TrimSvg.local_bounds decimal_float Examples.nested_rect
     = Ok (Some (Bounds 10 30 10 40))
  /\ TrimSvg.get_element_bounds decimal_float Examples.nested_rect
     = Ok (Some (Bounds 15 35 15 45))
  /\ TrimSvg.calculate_content_bounds decimal_float Examples.nested_translate
     = Ok (Some (TrimSvg.ViewBox 10 10 30 40))
  /\ (forall (py_float : string -> result Q) (e : element) (p : Q * Q),
        results_equiv
          (TrimSvgFixed.calculate_bounds_recursive py_float e p)
          (shifted p
             (TrimSvgFixed.calculate_bounds_recursive py_float e (0, 0)))).
Proof.
  split; [vm_compute; reflexivity|].
  split; [vm_compute; reflexivity|].
  split; [vm_compute; reflexivity|].
  split; [vm_compute; reflexivity|].
  intros py_float e p. apply fixed_walk_from_origin.
Qed.

(** C5: the lowercase commands [s], [q], [t] and [a] should consume
    groups of 4, 4, 2 and 7 operands and emit points relative to the
    cursor.  [parse_path_bounds] has no branch for them: they leave the
    point lists and the cursor untouched, whatever their operands.  The
    uppercase commands behave as described, [A] emitting the last two
    operands of each group of seven. *)
Theorem C5_relative_smooth_and_arc_commands_are_dropped :
  (forall (coords : list Q) (st : TrimSvg.path_state),
      TrimSvg.apply_command "s" coords st = st
      /\ TrimSvg.apply_command "q" coords st = st
      /\ TrimSvg.apply_command "t" coords st = st
      /\ TrimSvg.apply_command "a" coords st = st)
  /\ TrimSvg.parse_path_bounds decimal_float Examples.relative_smooth
     = Ok (Some (Bounds 10 10 10 10))
  /\ TrimSvg.parse_path_bounds decimal_float Examples.absolute_smooth
     = Ok (Some (Bounds 5 20 5 20))
  /\ TrimSvg.parse_path_bounds decimal_float Examples.relative_arc
     = Ok (Some (Bounds 0 0 0 0))
  /\ TrimSvg.parse_path_bounds decimal_float Examples.absolute_arc
     = Ok (Some (Bounds 0 10 0 10))
  /\ (forall (rx ry rot large sweep x y : Q) (st : TrimSvg.path_state),
        TrimSvg.apply_command "A" [rx; ry; rot; large; sweep; x; y] st
        = TrimSvg.go_to x y st).
Proof.
  split; [intros coords st; repeat split; reflexivity|].
  repeat split; vm_compute; reflexivity.
Qed.

(* ================================================================== *)
(** * The translate pattern *)

(** C4, as stated, fails on a string that chains a translation with
    another transform: it is not a single translation, and the translation
    in it is found and returned. *)
Lemma C4_counterexample :
  Re.fullmatch Re.translate Examples.chained_transform = None
  /\ TrimSvgFixed.parse_transform decimal_float Examples.chained_transform
     = Ok (5, 5)
  /\ TrimSvg.local_bounds decimal_float Examples.chained_rect
     = Ok (Some (Bounds 10 30 10 40))
  /\ TrimSvg.get_element_bounds decimal_float Examples.chained_rect
     = Ok (Some (Bounds 15 35 15 45)).
Proof. repeat split; vm_compute; reflexivity. Qed.

(** The transforms named by the specification, one by one. *)
Example unsupported_transforms_give_zero :
  map (TrimSvgFixed.parse_transform decimal_float)
    ["rotate(45)"; "scale(2)"; "skewX(10)"; "matrix(1 0 0 1 5 5)";
     "scale(2) rotate(45)"]%string
  = [Ok (0, 0); Ok (0, 0); Ok (0, 0); Ok (0, 0); Ok (0, 0)].
Proof. vm_compute; reflexivity. Qed.

(* ================================================================== *)
(** * Outcomes of [trim_svg] *)

Section Outcomes.

Variable py_float : string -> result Q.
Variable py_str : Q -> string.

(** Without a rectangle the first script returns [False] and leaves the
    output alone, once the dimensions for the report were read. *)
Lemma trim_svg_no_content
  (root : element) (out : file_system) (dims : list Q) :
  TrimSvg.read_current_dims py_float root = Ok dims ->
  TrimSvg.calculate_content_bounds py_float root = Ok None ->
  TrimSvg.trim_svg py_float py_str root out = (Ok false, out).
Proof.
  intros Hdims Hnone. unfold TrimSvg.trim_svg.
  rewrite Hdims, Hnone. reflexivity.
Qed.

Lemma fixed_trim_svg_no_content
  (root : element) (out : file_system) (dims : list Q) :
  TrimSvgFixed.read_current_dims py_float root = Ok dims ->
  TrimSvgFixed.calculate_bounds_recursive py_float root (0, 0) = Ok [] ->
  TrimSvgFixed.trim_svg py_float py_str root out = (Ok false, out).
Proof.
  intros Hdims Hnone. unfold TrimSvgFixed.trim_svg.
  rewrite Hdims, Hnone. reflexivity.
Qed.

(** The walk of the first script yields no rectangle when no node does. *)
Lemma aggregate_nothing (elements : list element) (acc : TrimSvg.content_acc) :
  Forall
    (fun e =>
       TrimSvg.is_non_visual e = true
       \/ TrimSvg.get_element_bounds py_float e = Ok None)
    elements ->
  TrimSvg.aggregate py_float elements acc = Ok acc.
Proof.
  induction 1 as [|e elements He _ IH]; simpl; [reflexivity|].
  destruct (TrimSvg.is_non_visual e) eqn:Hnv; [exact IH|].
  destruct He as [He|He]; [discriminate|].
  rewrite He. simpl. exact IH.
Qed.

Lemma calculate_content_bounds_nothing (root : element) :
  Forall
    (fun e =>
       TrimSvg.is_non_visual e = true
       \/ TrimSvg.get_element_bounds py_float e = Ok None)
    (TrimSvg.iter root) ->
  TrimSvg.calculate_content_bounds py_float root = Ok None.
Proof.
  intros H. unfold TrimSvg.calculate_content_bounds.
  rewrite (aggregate_nothing _ _ H). reflexivity.
Qed.

End Outcomes.

(** C6 (as amended): for every document whose root dimensions can be read
    for the report and whose walk ends without a rectangle, [trim_svg]
    returns [False] as a normal result and the output file is not
    written. *)
Theorem C6_no_content_returns_false
  (py_float : string -> result Q) (py_str : Q -> string)
  (root : element) (out : file_system) :
  (forall dims : list Q,
      TrimSvg.read_current_dims py_float root = Ok dims ->
      Forall
        (fun e =>
           TrimSvg.is_non_visual e = true
           \/ TrimSvg.get_element_bounds py_float e = Ok None)
        (TrimSvg.iter root) ->
      TrimSvg.calculate_content_bounds py_float root = Ok None
      /\ TrimSvg.trim_svg py_float py_str root out = (Ok false, out))
  /\ (forall dims : list Q,
        TrimSvgFixed.read_current_dims py_float root = Ok dims ->
        TrimSvgFixed.calculate_bounds_recursive py_float root (0, 0)
        = Ok [] ->
        TrimSvgFixed.trim_svg py_float py_str root out = (Ok false, out)).
Proof.
  split.
  - intros dims Hdims Hnone.
    pose proof (calculate_content_bounds_nothing py_float root Hnone) as H.
    split; [exact H|].
    apply trim_svg_no_content with (dims := dims); assumption.
  - intros dims Hdims Hnone.
    apply fixed_trim_svg_no_content with (dims := dims); assumption.
Qed.

Lemma C6_witness :
  TrimSvg.read_current_dims decimal_float Examples.empty_svg
  = Ok [0; 0; 100; 100]
  /\ TrimSvgFixed.read_current_dims decimal_float Examples.empty_svg
     = Ok [0; 0; 100; 100]
  /\ TrimSvg.trim_svg decimal_float decimal_repr Examples.empty_svg None
     = (Ok false, None)
  /\ TrimSvgFixed.trim_svg decimal_float decimal_repr Examples.empty_svg None
     = (Ok false, None).
Proof.
  destruct (C6_no_content_returns_false decimal_float decimal_repr
              Examples.empty_svg None) as [Hfirst Hfixed].
  split; [reflexivity|]. split; [reflexivity|]. split.
  - apply (Hfirst [0; 0; 100; 100]).
    + reflexivity.
    + constructor; [right; reflexivity | constructor].
  - apply (Hfixed [0; 0; 100; 100]); reflexivity.
Defined.

(** C6, as stated, fails on a document without shapes whose root has a
    [viewBox] that is not numeric: the walk would end without a rectangle,
    yet [trim_svg] raises [ValueError] while it reads the dimensions for
    the report. *)
Lemma C6_counterexample :
  TrimSvg.calculate_content_bounds decimal_float Examples.empty_auto_viewbox
  = Ok None
  /\ TrimSvgFixed.calculate_bounds_recursive decimal_float
       Examples.empty_auto_viewbox (0, 0)
     = Ok []
  /\ TrimSvg.trim_svg decimal_float decimal_repr
       Examples.empty_auto_viewbox None
     = (Raise ValueError, None)
  /\ TrimSvgFixed.trim_svg decimal_float decimal_repr
       Examples.empty_auto_viewbox None
     = (Raise ValueError, None).
Proof. repeat split; vm_compute; reflexivity. Qed.

(* ================================================================== *)
(** * Malformed numbers *)

Section Malformed.

Variable py_float : string -> result Q.
Variable py_str : Q -> string.











End Malformed.

(** What the two scripts do with the malformed width, evaluated. *)
Example malformed_width_raises_value_error :
  TrimSvg.trim_svg decimal_float decimal_repr Examples.bad_width None
  = (Raise ValueError, None)
  /\ TrimSvgFixed.trim_svg decimal_float decimal_repr Examples.bad_width None
     = (Raise ValueError, None).
Proof. split; vm_compute; reflexivity. Qed.

(* ================================================================== *)
(** * Polygons with an odd number of coordinates *)

Section OddPoints.

Variable py_float : string -> result Q.

Lemma evens_snoc_even {A : Type} (n : nat) (l : list A) (x : A) :
  List.length l = (2 * n)%nat -> evens (l ++ [x]) = evens l ++ [x].
Proof.
  revert l. induction n as [|n IH]; intros l H.
  - destruct l; [reflexivity | discriminate].
  - destruct l as [|a [|b l]]; simpl in H; try lia.
    simpl. f_equal. apply IH. lia.
Qed.

Lemma evens_snoc_odd {A : Type} (n : nat) (l : list A) (x : A) :
  List.length l = (2 * n + 1)%nat -> evens (l ++ [x]) = evens l.
Proof.
  revert l. induction n as [|n IH]; intros l H.
  - destruct l as [|a [|b l]]; simpl in H; try lia. reflexivity.
  - destruct l as [|a [|b l]]; simpl in H; try lia.
    simpl. f_equal. apply IH. lia.
Qed.

(** With an odd number of coordinates the last one is an x coordinate
    and has no y coordinate after it. *)
Lemma evens_odds_snoc {A : Type} (l : list A) (x : A) :
  Nat.Even (List.length l) ->
  evens (l ++ [x]) = evens l ++ [x] /\ odds (l ++ [x]) = odds l.
Proof.
  intros [n Hn]. split.
  - apply evens_snoc_even with (n := n). exact Hn.
  - destruct l as [|a l]; [reflexivity|].
    simpl. destruct n as [|n]; simpl in Hn; [lia|].
    apply evens_snoc_odd with (n := n). lia.
Qed.

Lemma odds_not_nil {A : Type} (l : list A) :
  l <> [] -> Nat.Even (List.length l) -> odds l <> [].
Proof.
  intros Hne [n Hn]. destruct l as [|a [|b l]].
  - contradiction.
  - simpl in Hn. lia.
  - unfold odds. destruct l; simpl; discriminate.
Qed.

Lemma bounds_of_points_some (xs ys : list Q) :
  xs <> [] -> ys <> [] ->
  exists b,
    TrimSvg.bounds_of_points xs ys = Ok (Some b)
    /\ min_list xs = Ok (min_x b) /\ max_list xs = Ok (max_x b)
    /\ min_list ys = Ok (min_y b) /\ max_list ys = Ok (max_y b).
Proof.
  intros Hx Hy. destruct xs as [|x xs]; [contradiction|].
  destruct ys as [|y ys]; [contradiction|].
  eexists. simpl. repeat split; reflexivity.
Qed.

Lemma findall_of_nothing : Re.findall Re.number "" = [].
Proof. reflexivity. Qed.

Lemma points_not_empty (pts : string) (coords : list Q) (last : Q) :
  map_result py_float (Re.findall Re.number pts) = Ok (coords ++ [last]) ->
  truthy pts = true.
Proof.
  destruct pts; [|reflexivity].
  rewrite findall_of_nothing. simpl. intros [= H].
  destruct coords; discriminate.
Qed.

End OddPoints.

(** C10 (as amended): for a polygon, and for a polyline in
    [trim_svg_fixed.py], whose points yield an odd number of coordinates,
    three at least, the x coordinates are those at even positions and the
    y coordinates those at odd positions; the last coordinate is kept as
    an x coordinate, enters [min_x] and [max_x], and has no y partner. *)
Theorem C10_unpaired_coordinate_counts_as_x
  (py_float : string -> result Q) (e : element) (pts : string)
  (coords : list Q) (last tx ty : Q) :
  el_get e "points" = Some pts ->
  map_result py_float (Re.findall Re.number pts) = Ok (coords ++ [last]) ->
  coords <> [] ->
  Nat.Even (List.length coords) ->
  evens (coords ++ [last]) = evens coords ++ [last]
  /\ odds (coords ++ [last]) = odds coords
  /\ (TrimSvg.shape_of (tag e) = Poly ->
      exists b,
        TrimSvg.local_bounds py_float e = Ok (Some b)
        /\ min_list (evens coords ++ [last]) = Ok (min_x b)
        /\ max_list (evens coords ++ [last]) = Ok (max_x b)
        /\ min_list (odds coords) = Ok (min_y b)
        /\ max_list (odds coords) = Ok (max_y b)
        /\ min_x b <= last <= max_x b)
  /\ (TrimSvgFixed.shape_of (TrimSvgFixed.local_name e) = Poly ->
      exists b,
        TrimSvgFixed.own_bounds py_float e tx ty = Ok [b]
        /\ min_list (map (fun c => c + tx) (evens coords ++ [last]))
           = Ok (min_x b)
        /\ max_list (map (fun c => c + tx) (evens coords ++ [last]))
           = Ok (max_x b)
        /\ min_list (map (fun c => c + ty) (odds coords)) = Ok (min_y b)
        /\ max_list (map (fun c => c + ty) (odds coords)) = Ok (max_y b)
        /\ min_x b <= last + tx <= max_x b).
Proof.
  intros Hget Hmap Hne Heven.
  destruct (evens_odds_snoc coords last Heven) as [Hev Hod].
  pose proof (points_not_empty py_float pts coords last Hmap) as Htruthy.
  pose proof (odds_not_nil coords Hne Heven) as Hodds.
  split; [exact Hev|]. split; [exact Hod|]. split.
  - intros Hshape. unfold TrimSvg.local_bounds, el_get_default.
    rewrite Hshape, Hget, Htruthy, Hmap. simpl. rewrite Hev, Hod.
    destruct (bounds_of_points_some (evens coords ++ [last]) (odds coords))
      as (b & Hb & Hmnx & Hmxx & Hmny & Hmxy);
      [destruct (evens coords); discriminate | exact Hodds |].
    exists b. rewrite Hb. repeat split; try assumption.
    + apply (min_list_le _ _ last Hmnx).
      apply in_or_app. right. left. reflexivity.
    + apply (max_list_ge _ _ last Hmxx).
      apply in_or_app. right. left. reflexivity.
  - intros Hshape. unfold TrimSvgFixed.own_bounds, el_get_default.
    rewrite Hshape, Hget, Htruthy, Hmap. simpl.
    assert (Hlen : (2 <=? List.length (coords ++ [last]))%nat = true).
    { apply Nat.leb_le. rewrite List.length_app. simpl.
      destruct coords; [contradiction | simpl; lia]. }
    change (match List.length (coords ++ [last]) with
            | S (S _) => true
            | _ => false
            end) with (2 <=? List.length (coords ++ [last]))%nat.
    rewrite Hlen, Hev, Hod.
    destruct (bounds_of_points_some
                (map (fun c => c + tx) (evens coords ++ [last]))
                (map (fun c => c + ty) (odds coords)))
      as (b & Hb & Hmnx & Hmxx & Hmny & Hmxy).
    { destruct (evens coords); discriminate. }
    { destruct (odds coords); [contradiction | discriminate]. }
    exists b.
    change (TrimSvgFixed.bounds_of_points) with (TrimSvg.bounds_of_points).
    rewrite Hb. simpl. repeat split; try assumption.
    + apply (min_list_le _ _ (last + tx) Hmnx).
      apply (in_map (fun c => c + tx)).
      apply in_or_app. right. left. reflexivity.
    + apply (max_list_ge _ _ (last + tx) Hmxx).
      apply (in_map (fun c => c + tx)).
      apply in_or_app. right. left. reflexivity.
Qed.

Lemma C10_witness :
  el_get Examples.polygon_five_tokens "points" = Some "1,2 3,4 5"%string
  /\ map_result decimal_float (Re.findall Re.number "1,2 3,4 5")
     = Ok ([1; 2; 3; 4] ++ [5])
  /\ evens ([1; 2; 3; 4] ++ [5]) = evens [1; 2; 3; 4] ++ [5]
  /\ odds ([1; 2; 3; 4] ++ [5]) = odds [1; 2; 3; 4]
  /\ (exists b,
        TrimSvg.local_bounds decimal_float Examples.polygon_five_tokens
        = Ok (Some b)
        /\ min_x b <= 5 <= max_x b)
  /\ (exists b,
        TrimSvgFixed.own_bounds decimal_float Examples.polygon_five_tokens
          0 0
        = Ok [b]
        /\ min_x b <= 5 + 0 <= max_x b).
Proof.
  assert (Hget : el_get Examples.polygon_five_tokens "points"
                 = Some "1,2 3,4 5"%string) by reflexivity.
  assert (Hmap : map_result decimal_float (Re.findall Re.number "1,2 3,4 5")
                 = Ok ([1; 2; 3; 4] ++ [5])) by (vm_compute; reflexivity).
  assert (Hne : [1; 2; 3; 4] <> ([] : list Q)) by discriminate.
  assert (Heven : Nat.Even (List.length [1; 2; 3; 4]))
    by (exists 2%nat; reflexivity).
  destruct (C10_unpaired_coordinate_counts_as_x decimal_float
              Examples.polygon_five_tokens "1,2 3,4 5" [1; 2; 3; 4] 5 0 0
              Hget Hmap Hne Heven) as (Hev & Hod & Hfirst & Hfixed).
  split; [exact Hget|]. split; [exact Hmap|].
  split; [exact Hev|]. split; [exact Hod|]. split.
  - destruct (Hfirst eq_refl) as (b & Hb & _ & _ & _ & _ & Hin).
    exists b. split; assumption.
  - destruct (Hfixed eq_refl) as (b & Hb & _ & _ & _ & _ & Hin).
    exists b. split; assumption.
Defined.

(** C10, as stated, fails for a single coordinate: it is an odd number of
    coordinates, the one token is taken as an x coordinate, and no
    rectangle is computed at all, so it enters no minimum or maximum. *)
Lemma C10_counterexample :
  Re.findall Re.number "7" = ["7"%string]
  /\ TrimSvg.shape_of (tag Examples.polygon_one_token) = Poly
  /\ TrimSvg.local_bounds decimal_float Examples.polygon_one_token = Ok None
  /\ TrimSvg.get_element_bounds decimal_float Examples.polygon_one_token
     = Ok None
  /\ TrimSvgFixed.shape_of (TrimSvgFixed.local_name Examples.polygon_one_token)
     = Poly
  /\ TrimSvgFixed.own_bounds decimal_float Examples.polygon_one_token 0 0
     = Ok [].
Proof. repeat split; vm_compute; reflexivity. Qed.

(** The tag [polyline] ends in [line]: [trim_svg.py] reads a polyline
    with the branch for lines, whose four attributes are missing here, and
    never comes to its points. *)
Example polyline_is_read_as_line :
  TrimSvg.shape_of "polyline" = Line
  /\ TrimSvg.get_element_bounds decimal_float Examples.polyline_five_tokens
     = Ok (Some (Bounds 0 0 0 0))
  /\ TrimSvgFixed.own_bounds decimal_float Examples.polyline_five_tokens 0 0
     = Ok [Bounds 1 5 2 4].
Proof. repeat split; vm_compute; reflexivity. Qed.

(** The examples of the specification for single shapes. *)
Example shapes_of_the_specification :
  TrimSvg.get_element_bounds decimal_float Examples.rect_10_10_20_30
  = Ok (Some (Bounds 10 30 10 40))
  /\ TrimSvg.parse_path_bounds decimal_float Examples.square_path
     = Ok (Some (Bounds 0 10 0 10))
  /\ TrimSvgFixed.get_path_bounds decimal_float Examples.square_path
     = Ok (Some (Bounds 0 10 0 10)).
Proof. repeat split; vm_compute; reflexivity. Qed.

(* ================================================================== *)
(** * Nothing is cut off *)

Section Enclosure.

Variable py_float : string -> result Q.

Lemma ext_min2_le_new (a : ext) (x : Q) : ext_le (ext_min2 a (Fin x)) (Fin x).
Proof. destruct a; unfold ext_min2; split_ext. Qed.

Lemma ext_max2_ge_new (a : ext) (x : Q) : ext_le (Fin x) (ext_max2 a (Fin x)).
Proof. destruct a; unfold ext_max2; split_ext. Qed.

Lemma ext_min2_le_old (a : ext) (x x0 : Q) :
  ext_le a (Fin x0) -> ext_le (ext_min2 a (Fin x)) (Fin x0).
Proof.
  destruct a; simpl; intros H; try contradiction; unfold ext_min2;
    split_ext.
Qed.

Lemma ext_max2_ge_old (a : ext) (x x0 : Q) :
  ext_le (Fin x0) a -> ext_le (Fin x0) (ext_max2 a (Fin x)).
Proof.
  destruct a; simpl; intros H; try contradiction; unfold ext_max2;
    split_ext.
Qed.

Lemma combine_encloses_new (acc : TrimSvg.content_acc) (b : bounds) :
  acc_encloses (TrimSvg.combine acc b) b.
Proof.
  unfold acc_encloses, TrimSvg.combine; simpl.
  repeat split; (apply ext_min2_le_new || apply ext_max2_ge_new).
Qed.

Lemma combine_encloses_old (acc : TrimSvg.content_acc) (b b0 : bounds) :
  acc_encloses acc b0 -> acc_encloses (TrimSvg.combine acc b) b0.
Proof.
  unfold acc_encloses, TrimSvg.combine; simpl.
  intros (H1 & H2 & H3 & H4).
  repeat split; (apply ext_min2_le_old || apply ext_max2_ge_old); assumption.
Qed.

(** What the loop has folded in stays enclosed to its end. *)
Lemma aggregate_keeps_enclosed
  (elements : list element) (acc acc' : TrimSvg.content_acc) (b0 : bounds) :
  acc_encloses acc b0 ->
  TrimSvg.aggregate py_float elements acc = Ok acc' ->
  acc_encloses acc' b0.
Proof.
  revert acc. induction elements as [|e elements IH]; intros acc Hacc; simpl.
  - intros [= <-]. exact Hacc.
  - destruct (TrimSvg.is_non_visual e); [apply IH; exact Hacc|].
    destruct (TrimSvg.get_element_bounds py_float e) as [[b|]|]; simpl;
      [| apply IH; exact Hacc | discriminate].
    apply IH. apply combine_encloses_old. exact Hacc.
Qed.

Lemma aggregate_encloses
  (elements : list element) (acc acc' : TrimSvg.content_acc)
  (e : element) (b : bounds) :
  In e elements ->
  TrimSvg.is_non_visual e = false ->
  TrimSvg.get_element_bounds py_float e = Ok (Some b) ->
  TrimSvg.aggregate py_float elements acc = Ok acc' ->
  acc_encloses acc' b.
Proof.
  intros Hin Hnv Hb. revert acc.
  induction elements as [|e' elements IH]; intros acc; [contradiction|].
  simpl. destruct Hin as [-> | Hin].
  - rewrite Hnv, Hb. simpl.
    apply aggregate_keeps_enclosed. apply combine_encloses_new.
  - destruct (TrimSvg.is_non_visual e'); [apply IH; exact Hin|].
    destruct (TrimSvg.get_element_bounds py_float e') as [[b'|]|]; simpl;
      [apply IH | apply IH | discriminate]; exact Hin.
Qed.

Lemma merge_encloses (all_bounds : list bounds) (m b : bounds) :
  TrimSvgFixed.merge all_bounds = Ok m ->
  In b all_bounds ->
  encloses m b.
Proof.
  unfold TrimSvgFixed.merge. intros Hm Hin.
  destruct (min_list (map min_x all_bounds)) as [mnx|] eqn:E1;
    simpl in Hm; [|discriminate].
  destruct (max_list (map max_x all_bounds)) as [mxx|] eqn:E2;
    simpl in Hm; [|discriminate].
  destruct (min_list (map min_y all_bounds)) as [mny|] eqn:E3;
    simpl in Hm; [|discriminate].
  destruct (max_list (map max_y all_bounds)) as [mxy|] eqn:E4;
    simpl in Hm; [|discriminate].
  injection Hm as <-. unfold encloses; simpl.
  split; [apply (min_list_le _ _ _ E1); apply in_map; exact Hin|].
  split; [apply (max_list_ge _ _ _ E2); apply in_map; exact Hin|].
  split; [apply (min_list_le _ _ _ E3); apply in_map; exact Hin|].
  apply (max_list_ge _ _ _ E4); apply in_map; exact Hin.
Qed.

End Enclosure.

(** X1: in [trim_svg.py], when the loop of [calculate_content_bounds]
    over [root.iter()] ends, the four running bounds reach around the
    rectangle of every node that the loop did not skip: the minima are at
    most, and the maxima at least, the rectangle's own. *)
Theorem X1_running_bounds_enclose_every_shape
  (py_float : string -> result Q) (root e : element) (b : bounds)
  (acc : TrimSvg.content_acc) :
  TrimSvg.aggregate py_float (TrimSvg.iter root) TrimSvg.no_content
  = Ok acc ->
  In e (TrimSvg.iter root) ->
  TrimSvg.is_non_visual e = false ->
  TrimSvg.get_element_bounds py_float e = Ok (Some b) ->
  acc_encloses acc b.
Proof.
  intros Hagg Hin Hnv Hb.
  exact (aggregate_encloses py_float _ _ _ e b Hin Hnv Hb Hagg).
Qed.

Lemma X1_witness :
  TrimSvg.aggregate decimal_float (TrimSvg.iter Examples.with_defs)
    TrimSvg.no_content
  = Ok (TrimSvg.ContentAcc (Fin (-50)) (Fin (-50)) (Fin 450) (Fin 450) true)
  /\ acc_encloses
       (TrimSvg.ContentAcc (Fin (-50)) (Fin (-50)) (Fin 450) (Fin 450) true)
       (Bounds 10 30 10 40).
Proof.
  assert (Hagg : TrimSvg.aggregate decimal_float
                   (TrimSvg.iter Examples.with_defs) TrimSvg.no_content
                 = Ok (TrimSvg.ContentAcc (Fin (-50)) (Fin (-50))
                         (Fin 450) (Fin 450) true))
    by (vm_compute; reflexivity).
  split; [exact Hagg|].
  apply (X1_running_bounds_enclose_every_shape decimal_float
           Examples.with_defs Examples.rect_10_10_20_30
           (Bounds 10 30 10 40) _ Hagg).
  - simpl. right. right. right. left. reflexivity.
  - reflexivity.
  - vm_compute; reflexivity.
Defined.

(** X2: in [trim_svg_fixed.py], the merged bounds reach around every
    rectangle of [all_bounds]: the four reductions give minima that are at
    most, and maxima that are at least, the rectangle's own. *)
Theorem X2_merged_bounds_enclose_every_rectangle
  (all_bounds : list bounds) (m b : bounds) :
  TrimSvgFixed.merge all_bounds = Ok m ->
  In b all_bounds ->
  encloses m b.
Proof.
  intros Hm Hin. exact (merge_encloses all_bounds m b Hm Hin).
Qed.

Lemma X2_witness :
  TrimSvgFixed.merge [Bounds 0 10 0 10; Bounds 5 20 (-3) 4]
  = Ok (Bounds 0 20 (-3) 10)
  /\ encloses (Bounds 0 20 (-3) 10) (Bounds 5 20 (-3) 4).
Proof.
  assert (Hm : TrimSvgFixed.merge [Bounds 0 10 0 10; Bounds 5 20 (-3) 4]
               = Ok (Bounds 0 20 (-3) 10)) by (vm_compute; reflexivity).
  split; [exact Hm|].
  exact (X2_merged_bounds_enclose_every_rectangle _ _ (Bounds 5 20 (-3) 4)
           Hm (or_intror (or_introl eq_refl))).
Defined.

(* ================================================================== *)
(** * The command-aware path parser *)

Section PathParser.

Variable py_float : string -> result Q.

Lemma go_to_paired (x y : Q) (st : TrimSvg.path_state) :
  paired st -> paired (TrimSvg.go_to x y st).
Proof.
  unfold paired, TrimSvg.go_to, TrimSvg.extend; simpl.
  intros H. rewrite !List.length_app, H. reflexivity.
Qed.

Lemma extend_paired (xs ys : list Q) (x y : Q) (st : TrimSvg.path_state) :
  List.length xs = List.length ys ->
  paired st ->
  paired (TrimSvg.set_current x y (TrimSvg.extend xs ys st)).
Proof.
  unfold paired, TrimSvg.extend; simpl.
  intros Hl H. rewrite !List.length_app, H, Hl. reflexivity.
Qed.

(** Each loop over the operands keeps the lists paired; the induction is
    on a bound of the number of operands, the loops consuming several at a
    time. *)
Ltac by_operand_count :=
  intros coords; remember (List.length coords) as n eqn:Hn;
  assert (Hle : (List.length coords <= n)%nat) by lia; clear Hn;
  revert coords Hle; induction n as [|n IH]; intros coords Hle st Hst;
  [ destruct coords; [exact Hst | simpl in Hle; lia] | ].

Lemma pairs_abs_paired :
  forall coords st, paired st -> paired (TrimSvg.pairs_abs coords st).
Proof.
  by_operand_count.
  destruct coords as [|x [|y rest]]; simpl; try exact Hst.
  apply IH; [simpl in Hle; lia | apply go_to_paired; exact Hst].
Qed.

Lemma pairs_rel_paired :
  forall coords st, paired st -> paired (TrimSvg.pairs_rel coords st).
Proof.
  by_operand_count.
  destruct coords as [|x [|y rest]]; simpl; try exact Hst.
  apply IH; [simpl in Hle; lia | apply go_to_paired; exact Hst].
Qed.

Lemma horizontal_abs_paired :
  forall coords st, paired st -> paired (TrimSvg.horizontal_abs coords st).
Proof.
  induction coords as [|x rest IH]; intros st Hst; simpl; [exact Hst|].
  apply IH, go_to_paired, Hst.
Qed.

Lemma vertical_abs_paired :
  forall coords st, paired st -> paired (TrimSvg.vertical_abs coords st).
Proof.
  induction coords as [|x rest IH]; intros st Hst; simpl; [exact Hst|].
  apply IH, go_to_paired, Hst.
Qed.

Lemma horizontal_rel_paired :
  forall coords st, paired st -> paired (TrimSvg.horizontal_rel coords st).
Proof.
  induction coords as [|x rest IH]; intros st Hst; simpl; [exact Hst|].
  apply IH, go_to_paired, Hst.
Qed.

Lemma vertical_rel_paired :
  forall coords st, paired st -> paired (TrimSvg.vertical_rel coords st).
Proof.
  induction coords as [|x rest IH]; intros st Hst; simpl; [exact Hst|].
  apply IH, go_to_paired, Hst.
Qed.

Lemma cubic_abs_paired :
  forall coords st, paired st -> paired (TrimSvg.cubic_abs coords st).
Proof.
  by_operand_count.
  destruct coords as [|a [|b [|c [|d [|x [|y rest]]]]]]; simpl;
    try exact Hst.
  apply IH; [simpl in Hle; lia | apply extend_paired; [reflexivity|exact Hst]].
Qed.

Lemma cubic_rel_paired :
  forall coords st, paired st -> paired (TrimSvg.cubic_rel coords st).
Proof.
  by_operand_count.
  destruct coords as [|a [|b [|c [|d [|x [|y rest]]]]]]; simpl;
    try exact Hst.
  apply IH; [simpl in Hle; lia | apply extend_paired; [reflexivity|exact Hst]].
Qed.

Lemma quads_abs_paired :
  forall coords st, paired st -> paired (TrimSvg.quads_abs coords st).
Proof.
  by_operand_count.
  destruct coords as [|a [|b [|x [|y rest]]]]; simpl; try exact Hst.
  apply IH; [simpl in Hle; lia | apply extend_paired; [reflexivity|exact Hst]].
Qed.

Lemma arcs_abs_paired :
  forall coords st, paired st -> paired (TrimSvg.arcs_abs coords st).
Proof.
  by_operand_count.
  destruct coords as [|a [|b [|c [|d [|f [|x [|y rest]]]]]]]; simpl;
    try exact Hst.
  apply IH; [simpl in Hle; lia | apply go_to_paired; exact Hst].
Qed.

Lemma apply_command_paired
  (cmd_letter : ascii) (coords : list Q) (st : TrimSvg.path_state) :
  paired st -> paired (TrimSvg.apply_command cmd_letter coords st).
Proof.
  intros Hst. unfold TrimSvg.apply_command, TrimSvg.move_abs,
    TrimSvg.move_rel.
  repeat match goal with
    | |- context [if ?c then _ else _] => destruct c
    end;
    try exact Hst;
    try (destruct coords as [|x [|y rest]]; try exact Hst);
    first [ apply pairs_abs_paired | apply pairs_rel_paired
          | apply horizontal_abs_paired | apply vertical_abs_paired
          | apply horizontal_rel_paired | apply vertical_rel_paired
          | apply cubic_abs_paired | apply cubic_rel_paired
          | apply quads_abs_paired | apply arcs_abs_paired ];
    try apply go_to_paired; exact Hst.
Qed.

Lemma run_commands_paired
  (commands : list string) (st st' : TrimSvg.path_state) :
  paired st ->
  TrimSvg.run_commands py_float commands st = Ok st' ->
  paired st'.
Proof.
  revert st. induction commands as [|cmd commands IH]; intros st Hst; simpl.
  - intros [= <-]. exact Hst.
  - destruct cmd as [|c rest]; [discriminate|].
    destruct (TrimSvg.command_coords py_float rest) as [coords|]; simpl;
      [|discriminate].
    apply IH. apply apply_command_paired. exact Hst.
Qed.

(** The rectangle of a list of points reaches every point. *)
Lemma bounds_of_points_enclose (xs ys : list Q) (b : bounds) :
  TrimSvg.bounds_of_points xs ys = Ok (Some b) ->
  Forall (fun x => min_x b <= x <= max_x b) xs
  /\ Forall (fun y => min_y b <= y <= max_y b) ys.
Proof.
  intros H.
  destruct (bounds_of_points_some xs ys)
    as (b' & Hb' & Hmnx & Hmxx & Hmny & Hmxy).
  { destruct xs; [|discriminate]. simpl in H. discriminate. }
  { destruct ys; [|discriminate]. destruct xs; simpl in H; discriminate. }
  rewrite Hb' in H. injection H as <-.
  split; apply Forall_forall; intros z Hz; split;
    first [ apply (min_list_le _ _ _ Hmnx Hz)
          | apply (max_list_ge _ _ _ Hmxx Hz)
          | apply (min_list_le _ _ _ Hmny Hz)
          | apply (max_list_ge _ _ _ Hmxy Hz) ].
Qed.

End PathParser.

(** X3: in [parse_path_bounds], every x coordinate has its y coordinate
    after every command, so the point lists are empty together; the result
    is [None] exactly when no point was collected, and a rectangle that is
    returned reaches every collected point. *)
Theorem X3_path_bounds_enclose_collected_points
  (py_float : string -> result Q) (path_data : string)
  (st : TrimSvg.path_state) :
  TrimSvg.run_commands py_float (Re.findall Re.command path_data)
    (TrimSvg.PathState [] [] 0 0) = Ok st ->
  paired st
  /\ (TrimSvg.parse_path_bounds py_float path_data = Ok None
      <-> TrimSvg.x_coords st = [])
  /\ (forall b,
        TrimSvg.parse_path_bounds py_float path_data = Ok (Some b) ->
        Forall (fun x => min_x b <= x <= max_x b) (TrimSvg.x_coords st)
        /\ Forall (fun y => min_y b <= y <= max_y b) (TrimSvg.y_coords st)).
Proof.
  intros Hrun.
  assert (Hp : paired st).
  { eapply run_commands_paired; [|exact Hrun]. reflexivity. }
  split; [exact Hp|].
  unfold TrimSvg.parse_path_bounds. rewrite Hrun. simpl.
  split.
  - unfold paired in Hp.
    destruct (TrimSvg.x_coords st) as [|x xs],
      (TrimSvg.y_coords st) as [|y ys]; simpl in *;
      try discriminate; split; intros H; try reflexivity; discriminate.
  - intros b Hb. apply bounds_of_points_enclose. exact Hb.
Qed.

Lemma X3_witness :
  TrimSvg.run_commands decimal_float
    (Re.findall Re.command Examples.square_path)
    (TrimSvg.PathState [] [] 0 0)
  = Ok (TrimSvg.PathState [0; 10; 10; 0] [0; 0; 10; 10] 0 10)
  /\ paired (TrimSvg.PathState [0; 10; 10; 0] [0; 0; 10; 10] 0 10)
  /\ Forall (fun x => 0 <= x <= 10) [0; 10; 10; 0].
Proof.
  assert (Hrun : TrimSvg.run_commands decimal_float
                   (Re.findall Re.command Examples.square_path)
                   (TrimSvg.PathState [] [] 0 0)
                 = Ok (TrimSvg.PathState [0; 10; 10; 0] [0; 0; 10; 10] 0 10))
    by (vm_compute; reflexivity).
  destruct (X3_path_bounds_enclose_collected_points decimal_float
              Examples.square_path _ Hrun) as (Hp & _ & Hall).
  split; [exact Hrun|]. split; [exact Hp|].
  assert (Hb : TrimSvg.parse_path_bounds decimal_float Examples.square_path
               = Ok (Some (Bounds 0 10 0 10))) by (vm_compute; reflexivity).
  exact (proj1 (Hall (Bounds 0 10 0 10) Hb)).
Defined.

(* ================================================================== *)
(** * What the command pattern cuts out *)

Section CommandPattern.

Variable py_float : string -> result Q.

(** Repetition hands the continuation a rest that is not longer. *)
Lemma star_rest (R : Type) (p : ascii -> bool) (s : string)
  (k : string -> option R) (x : R) :
  Re.star p s k = Some x ->
  exists rest,
    k rest = Some x /\ (String.length rest <= String.length s)%nat.
Proof.
  revert x. induction s as [|c s IH]; intros x H; simpl in H.
  - exists EmptyString. split; [exact H | apply Nat.le_refl].
  - destruct (p c).
    + destruct (Re.star p s k) as [y|] eqn:E.
      * injection H as <-. destruct (IH y eq_refl) as (rest & Hk & Hlen).
        exists rest. split; [exact Hk | simpl; lia].
      * exists (String c s). split; [exact H | apply Nat.le_refl].
    + exists (String c s). split; [exact H | apply Nat.le_refl].
Qed.

Lemma match_at_command (s m rest : string) (caps : Re.captures) :
  Re.match_at Re.command s = Some (m, caps, rest) -> is_command m.
Proof.
  unfold Re.match_at, Re.command. cbn [Re.run].
  destruct s as [|c s]; [discriminate|].
  destruct (Re.command_char c) eqn:Hc; [|discriminate].
  intros H. apply star_rest in H. destruct H as (rest' & Hk & Hlen).
  assert (Hn : (String.length (String c s) - String.length rest'
                = S (String.length s - String.length rest'))%nat)
    by (cbn [String.length]; lia).
  rewrite Hn in Hk. cbn [String.substring] in Hk.
  injection Hk as <- _ _.
  exists c. eexists. split; [reflexivity | exact Hc].
Qed.

Lemma findall_from_command (s : string) (skip : nat) :
  Forall is_command (Re.findall_from Re.command s skip).
Proof.
  revert skip. induction s as [|c s IH]; intros skip.
  - simpl. constructor.
  - cbn [Re.findall_from]. destruct skip as [|n]; [|apply IH].
    destruct (Re.match_at Re.command (String c s)) as [[[m caps] rest]|]
      eqn:E; [|apply IH].
    constructor; [|apply IH].
    exact (match_at_command _ _ _ _ E).
Qed.

Lemma map_result_raises {A B : Type} (f : A -> result B) (l : list A)
  (e : exn) :
  map_result f l = Raise e -> exists x, In x l /\ f x = Raise e.
Proof.
  induction l as [|x l IH]; simpl; [discriminate|].
  destruct (f x) as [y|e'] eqn:E; simpl.
  - destruct (map_result f l) as [ys|e'']; simpl; [discriminate|].
    intros [= ->]. destruct (IH eq_refl) as (x' & Hin & Hx').
    exists x'. split; [right; exact Hin | exact Hx'].
  - intros [= ->]. exists x. split; [left; reflexivity | exact E].
Qed.

Lemma run_commands_raises
  (commands : list string) (st : TrimSvg.path_state) (e : exn) :
  Forall is_command commands ->
  TrimSvg.run_commands py_float commands st = Raise e ->
  exists cmd token,
    In cmd commands /\ In token (command_tokens cmd)
    /\ py_float token = Raise e.
Proof.
  intros Hall. revert st.
  induction Hall as [|cmd commands (c & rest & -> & _) _ IH]; intros st;
    simpl; [discriminate|].
  destruct (TrimSvg.command_coords py_float rest) as [coords|e'] eqn:E;
    simpl.
  - intros H. destruct (IH _ H) as (cmd & token & Hcmd & Htoken & Hraise).
    exists cmd, token. split; [right; exact Hcmd|]. split; assumption.
  - intros [= ->]. unfold TrimSvg.command_coords in E.
    destruct (truthy (strip rest)); [|discriminate].
    destruct (map_result_raises _ _ _ E) as (token & Hin & Htoken).
    exists (String c rest), token.
    split; [left; reflexivity|]. split; [exact Hin | exact Htoken].
Qed.

(** A comprehension over [float] returns exactly when every token
    converts. *)
Lemma map_result_converts (tokens : list string) :
  is_ok (map_result py_float tokens) = all_convert py_float tokens.
Proof.
  unfold all_convert. induction tokens as [|t tokens IH]; [reflexivity|].
  simpl. destruct (py_float t) as [q|]; simpl; [|reflexivity].
  rewrite <- IH. destruct (map_result py_float tokens); reflexivity.
Qed.

Lemma command_coords_converts (c : ascii) (rest : string) :
  is_ok (TrimSvg.command_coords py_float rest)
  = all_convert py_float (command_tokens (String c rest)).
Proof.
  unfold TrimSvg.command_coords. cbn [command_tokens].
  destruct (strip rest) as [|c' rest'] eqn:E.
  - reflexivity.
  - cbn [truthy]. apply map_result_converts.
Qed.

Lemma run_commands_converts
  (commands : list string) (st : TrimSvg.path_state) :
  Forall is_command commands ->
  is_ok (TrimSvg.run_commands py_float commands st)
  = forallb (fun cmd => all_convert py_float (command_tokens cmd)) commands.
Proof.
  intros Hall. revert st.
  induction Hall as [|cmd commands (c & rest & -> & _) _ IH]; intros st;
    [reflexivity|].
  cbn [TrimSvg.run_commands forallb].
  rewrite <- (command_coords_converts c rest).
  destruct (TrimSvg.command_coords py_float rest) as [coords|e]; simpl;
    [apply IH | reflexivity].
Qed.

Lemma bounds_of_points_returns (xs ys : list Q) :
  is_ok (TrimSvg.bounds_of_points xs ys) = true.
Proof. destruct xs, ys; reflexivity. Qed.

Lemma parse_path_bounds_converts (path_data : string) :
  is_ok (TrimSvg.parse_path_bounds py_float path_data)
  = operands_convert py_float path_data.
Proof.
  unfold TrimSvg.parse_path_bounds, operands_convert, Re.findall.
  rewrite <- (run_commands_converts _ (TrimSvg.PathState [] [] 0 0)
                (findall_from_command path_data 0)).
  destruct (TrimSvg.run_commands py_float _ _) as [st|e]; simpl;
    [apply bounds_of_points_returns | reflexivity].
Qed.




Lemma bounds_of_points_never_raises (xs ys : list Q) (e : exn) :
  TrimSvg.bounds_of_points xs ys <> Raise e.
Proof. destruct xs, ys; simpl; discriminate. Qed.

End CommandPattern.

(** X4: every piece the command pattern cuts out of a path starts with a
    command letter, so indexing [cmd[0]] cannot fail; [parse_path_bounds]
    returns exactly when [float] converts the number tokens of every
    command, and an exception it raises is the one [float] raised on such
    a token. *)
Theorem X4_path_parser_returns_when_tokens_convert
  (py_float : string -> result Q) (path_data : string) :
  Forall is_command (Re.findall Re.command path_data)
  /\ is_ok (TrimSvg.parse_path_bounds py_float path_data)
     = operands_convert py_float path_data
  /\ (forall e : exn,
        TrimSvg.parse_path_bounds py_float path_data = Raise e ->
        exists cmd token,
          In cmd (Re.findall Re.command path_data)
          /\ In token (command_tokens cmd)
          /\ py_float token = Raise e).
Proof.
  split; [apply findall_from_command|].
  split; [apply parse_path_bounds_converts|].
  intros e H. unfold TrimSvg.parse_path_bounds in H.
  destruct (TrimSvg.run_commands py_float _ _) as [st|e'] eqn:E;
    simpl in H.
  - exfalso. exact (bounds_of_points_never_raises _ _ _ H).
  - injection H as ->.
    exact (run_commands_raises py_float _ _ _
             (findall_from_command path_data 0) E).
Qed.

Lemma X4_witness :
  operands_convert decimal_float Examples.square_path = true
  /\ Forall is_command (Re.findall Re.command Examples.square_path)
  /\ is_ok (TrimSvg.parse_path_bounds decimal_float Examples.square_path)
     = true.
Proof.
  assert (H : operands_convert decimal_float Examples.square_path = true)
    by (vm_compute; reflexivity).
  destruct (X4_path_parser_returns_when_tokens_convert decimal_float
              Examples.square_path) as (Hcmd & Hok & _).
  split; [exact H|]. split; [exact Hcmd|].
  rewrite Hok. exact H.
Defined.

(* ================================================================== *)
(** * The pairing path parser *)

Section Pairing.

Variable py_float : string -> result Q.

Lemma pair_numbers_ok (numbers : list string) (xs ys : list Q) :
  raises_only_caught py_float ->
  exists points, TrimSvgFixed.pair_numbers py_float numbers xs ys = Ok points.
Proof.
  intros Hcaught.
  remember (List.length numbers) as n eqn:Hn.
  assert (Hle : (List.length numbers <= n)%nat) by lia. clear Hn.
  revert numbers Hle xs ys.
  induction n as [|n IH]; intros numbers Hle xs ys.
  - destruct numbers; [simpl; eauto | simpl in Hle; lia].
  - destruct numbers as [|a [|b rest]]; simpl; eauto.
    assert (Hrest : (List.length rest <= n)%nat) by (simpl in Hle; lia).
    destruct (py_float a) as [x|e] eqn:Ea; simpl.
    + destruct (py_float b) as [y|e] eqn:Eb; simpl.
      * apply IH; exact Hrest.
      * rewrite (Hcaught _ _ Eb). apply IH; exact Hrest.
    + rewrite (Hcaught _ _ Ea). apply IH; exact Hrest.
Qed.

Lemma pair_numbers_drops_last
  (n : nat) (numbers : list string) (last : string) (xs ys : list Q) :
  List.length numbers = (2 * n)%nat ->
  TrimSvgFixed.pair_numbers py_float (numbers ++ [last]) xs ys
  = TrimSvgFixed.pair_numbers py_float numbers xs ys.
Proof.
  revert numbers xs ys. induction n as [|n IH]; intros numbers xs ys Hlen.
  - destruct numbers; [reflexivity | discriminate].
  - destruct numbers as [|a [|b rest]]; simpl in Hlen; try lia.
    simpl.
    destruct (py_float a) as [x|e]; simpl.
    + destruct (py_float b) as [y|e]; simpl.
      * apply IH. lia.
      * destruct (TrimSvgFixed.caught e); [apply IH; lia | reflexivity].
    + destruct (TrimSvgFixed.caught e); [apply IH; lia | reflexivity].
Qed.

Lemma decimal_float_raises (s : string) (e : exn) :
  decimal_float s = Raise e -> e = ValueError.
Proof.
  assert (Hend : forall (neg : bool) (num : Z) (ni nf : nat) (s3 : string),
             match s3, (ni + nf)%nat with
             | EmptyString, S _ =>
                 Ok (Qmake (if neg then - num else num)%Z (pow10 nf))
             | _, _ => Raise ValueError
             end = Raise e -> e = ValueError).
  { intros neg num ni nf s3. destruct s3; [|intros [= <-]; reflexivity].
    destruct (ni + nf)%nat; [intros [= <-]; reflexivity | discriminate]. }
  unfold decimal_float.
  destruct (read_sign (strip s)) as [neg s1].
  destruct (read_digits s1 0 0) as [[ip ni] s2].
  destruct s2 as [|c s2'].
  - exact (Hend neg ip ni 0%nat EmptyString).
  - destruct (Ascii.eqb c ".");
      [|exact (Hend neg ip ni 0%nat (String c s2'))].
    destruct (read_digits s2' ip 0) as [[num nf] s3].
    exact (Hend neg num ni nf s3).
Qed.

End Pairing.

(** X5: [get_path_bounds] of [trim_svg_fixed.py] never fails on path
    data, whatever the text, as long as [float] raises nothing but what
    the loop catches: a pair that does not convert is skipped. *)
Theorem X5_pairing_parser_never_fails
  (py_float : string -> result Q) (path_data : string) :
  raises_only_caught py_float ->
  exists r, TrimSvgFixed.get_path_bounds py_float path_data = Ok r.
Proof.
  intros Hcaught. unfold TrimSvgFixed.get_path_bounds.
  destruct (pair_numbers_ok py_float (Re.findall Re.number_exp path_data)
              [] [] Hcaught) as [[xs ys] H].
  rewrite H. simpl.
  destruct xs as [|x xs], ys as [|y ys]; simpl; eauto.
Qed.

Lemma X5_witness :
  raises_only_caught decimal_float
  /\ exists r, TrimSvgFixed.get_path_bounds decimal_float "M1,2 Lx,4" = Ok r.
Proof.
  assert (H : raises_only_caught decimal_float).
  { intros s e He. rewrite (decimal_float_raises s e He). reflexivity. }
  split; [exact H|].
  exact (X5_pairing_parser_never_fails decimal_float "M1,2 Lx,4" H).
Defined.

(** X6: the pairing loop of [get_path_bounds] reads the numbers two by
    two and leaves a last unpaired number out, unlike the polygon branch,
    which keeps it as an x coordinate. *)
Theorem X6_pairing_parser_drops_unpaired_number
  (py_float : string -> result Q) (numbers : list string) (last : string)
  (xs ys : list Q) :
  Nat.Even (List.length numbers) ->
  TrimSvgFixed.pair_numbers py_float (numbers ++ [last]) xs ys
  = TrimSvgFixed.pair_numbers py_float numbers xs ys.
Proof.
  intros [n Hn]. apply pair_numbers_drops_last with (n := n). exact Hn.
Qed.

Lemma X6_witness :
  Nat.Even (List.length ["1"; "2"]%string)
  /\ TrimSvgFixed.pair_numbers decimal_float
       (["1"%string; "2"%string] ++ ["3"%string]) [] []
     = TrimSvgFixed.pair_numbers decimal_float ["1"; "2"]%string [] []
  /\ TrimSvgFixed.get_path_bounds decimal_float "M1,2 H3"
     = Ok (Some (Bounds 1 1 2 2)).
Proof.
  assert (H : Nat.Even (List.length ["1"; "2"]%string))
    by (exists 1%nat; reflexivity).
  split; [exact H|]. split.
  - exact (X6_pairing_parser_drops_unpaired_number decimal_float
             ["1"; "2"]%string "3"%string [] [] H).
  - vm_compute; reflexivity.
Defined.

(* ================================================================== *)
(** * What is written *)

Section Written.

Lemma get_set_same (d : attrib) (k v : string) : get (set d k v) k = Some v.
Proof.
  induction d as [|[k0 v0] d IH]; simpl.
  - rewrite String.eqb_refl. reflexivity.
  - destruct (String.eqb k0 k) eqn:E; simpl; rewrite E; [reflexivity|exact IH].
Qed.

Lemma get_set_other (d : attrib) (k k' v : string) :
  k <> k' -> get (set d k v) k' = get d k'.
Proof.
  intros Hne. induction d as [|[k0 v0] d IH]; simpl.
  - destruct (String.eqb k k') eqn:E; [|reflexivity].
    apply String.eqb_eq in E. contradiction.
  - destruct (String.eqb k0 k) eqn:E; simpl.
    + apply String.eqb_eq in E. subst k0.
      destruct (String.eqb k k') eqn:E'; [|reflexivity].
      apply String.eqb_eq in E'. contradiction.
    + destruct (String.eqb k0 k'); [reflexivity | exact IH].
Qed.

Lemma get_filter (P : string -> bool) (d : attrib) (k : string) :
  get (filter (fun kv => negb (P (fst kv))) d) k
  = if P k then None else get d k.
Proof.
  induction d as [|[k0 v0] d IH]; simpl.
  - destruct (P k); reflexivity.
  - destruct (P k0) eqn:E0; simpl.
    + rewrite IH. destruct (P k) eqn:Ek; [reflexivity|].
      destruct (String.eqb k0 k) eqn:E; [|reflexivity].
      apply String.eqb_eq in E. congruence.
    + destruct (String.eqb k0 k) eqn:E.
      * apply String.eqb_eq in E. subst k0. rewrite E0. reflexivity.
      * exact IH.
Qed.

Lemma el_get_set_same (e : element) (k v : string) :
  el_get (el_set e k v) k = Some v.
Proof. destruct e. apply get_set_same. Qed.

Lemma el_get_set_other (e : element) (k k' v : string) :
  k <> k' -> el_get (el_set e k v) k' = el_get e k'.
Proof. destruct e. apply get_set_other. Qed.

Lemma el_set_shape (e : element) (k v : string) :
  tag (el_set e k v) = tag e /\ children (el_set e k v) = children e.
Proof. destruct e. split; reflexivity. Qed.

Lemma clean_namespaces_shape (e : element) :
  tag (TrimSvgFixed.clean_namespaces e) = tag e
  /\ children (TrimSvgFixed.clean_namespaces e) = children e.
Proof. destruct e. split; reflexivity. Qed.

Lemma el_get_clean_namespaces (e : element) (k : string) :
  el_get (TrimSvgFixed.clean_namespaces e) k
  = if TrimSvgFixed.is_namespace_key k then None else el_get e k.
Proof. destruct e. apply get_filter. Qed.

(** The root after the three [root.set] calls of either script. *)
Lemma three_sets (root : element) (vb w h : string) :
  let written :=
    el_set (el_set (el_set root "viewBox" vb) "width" w) "height" h in
  tag written = tag root
  /\ children written = children root
  /\ el_get written "viewBox" = Some vb
  /\ el_get written "width" = Some w
  /\ el_get written "height" = Some h
  /\ (forall k, ~ In k written_keys -> el_get written k = el_get root k).
Proof.
  intros written. unfold written.
  split; [rewrite !(proj1 (el_set_shape _ _ _)); reflexivity|].
  split; [rewrite !(proj2 (el_set_shape _ _ _)); reflexivity|].
  split.
  { rewrite !el_get_set_other by discriminate. apply el_get_set_same. }
  split.
  { rewrite el_get_set_other by discriminate. apply el_get_set_same. }
  split; [apply el_get_set_same|].
  intros k Hk.
  rewrite !el_get_set_other; [reflexivity | | |];
    intros Heq; apply Hk; rewrite <- Heq; simpl; tauto.
Qed.

Lemma merge_not_empty (b : bounds) (l : list bounds) :
  exists m, TrimSvgFixed.merge (b :: l) = Ok m.
Proof. eexists. reflexivity. Qed.

End Written.

Section Reports.

Lemma report_reduction_ok (dims : list Q) :
  (4 <= List.length dims)%nat ->
  TrimSvg.report_reduction dims = Ok tt
  /\ TrimSvgFixed.report_reduction dims = Ok tt.
Proof.
  destruct dims as [|a [|b [|c [|d dims]]]]; simpl; try lia.
  intros _. split; reflexivity.
Qed.


End Reports.



(** X8: when the dimensions read for the report have four entries and
    the walk found rectangles, [trim_svg] of [trim_svg_fixed.py] returns
    [True] and writes the root with [viewBox], [width] and [height] set
    from the padded merge and [xmlns] set to the SVG namespace; every
    attribute whose key starts with a brace or with [xmlns] (other than
    [xmlns] itself) is gone, the other attributes, the tag and the
    children are as they were. *)
Theorem X8_fixed_trim_svg_writes_and_cleans
  (py_float : string -> result Q) (py_str : Q -> string)
  (root : element) (out : file_system) (dims : list Q)
  (b : bounds) (rest : list bounds) :
  TrimSvgFixed.read_current_dims py_float root = Ok dims ->
  (4 <= List.length dims)%nat ->
  TrimSvgFixed.calculate_bounds_recursive py_float root (0, 0)
  = Ok (b :: rest) ->
  exists m written,
    TrimSvgFixed.merge (b :: rest) = Ok m
    /\ TrimSvgFixed.trim_svg py_float py_str root out
       = (Ok true, Some written)
    /\ tag written = tag root
    /\ children written = children root
    /\ el_get written "viewBox"
       = Some (TrimSvgFixed.format_view_box py_str
                 (TrimSvgFixed.add_padding m))
    /\ el_get written "width"
       = Some (py_str (TrimSvgFixed.vb_width (TrimSvgFixed.add_padding m)))
    /\ el_get written "height"
       = Some (py_str (TrimSvgFixed.vb_height (TrimSvgFixed.add_padding m)))
    /\ el_get written "xmlns" = Some "http://www.w3.org/2000/svg"%string
    /\ (forall k,
          TrimSvgFixed.is_namespace_key k = true -> el_get written k = None)
    /\ (forall k,
          TrimSvgFixed.is_namespace_key k = false ->
          ~ In k ("xmlns"%string :: written_keys) ->
          el_get written k = el_get root k).
Proof.
  intros Hdims Hlen Hwalk.
  destruct (merge_not_empty b rest) as [m Hm].
  unfold TrimSvgFixed.trim_svg.
  rewrite Hdims, Hwalk, Hm, (proj2 (report_reduction_ok dims Hlen)).
  cbn [Py.bind].
  destruct (three_sets root
              (TrimSvgFixed.format_view_box py_str
                 (TrimSvgFixed.add_padding m))
              (py_str (TrimSvgFixed.vb_width (TrimSvgFixed.add_padding m)))
              (py_str (TrimSvgFixed.vb_height (TrimSvgFixed.add_padding m))))
    as (Htag & Hch & Hvb & Hw & Hh & Hother).
  exists m. eexists. split; [reflexivity|]. split; [reflexivity|].
  split.
  { rewrite (proj1 (el_set_shape _ _ _)),
      (proj1 (clean_namespaces_shape _)). exact Htag. }
  split.
  { rewrite (proj2 (el_set_shape _ _ _)),
      (proj2 (clean_namespaces_shape _)). exact Hch. }
  split.
  { rewrite el_get_set_other by discriminate.
    rewrite el_get_clean_namespaces. exact Hvb. }
  split.
  { rewrite el_get_set_other by discriminate.
    rewrite el_get_clean_namespaces. exact Hw. }
  split.
  { rewrite el_get_set_other by discriminate.
    rewrite el_get_clean_namespaces. exact Hh. }
  split; [apply el_get_set_same|].
  split.
  - intros k Hk.
    rewrite el_get_set_other by (intros <-; discriminate).
    rewrite el_get_clean_namespaces, Hk. reflexivity.
  - intros k Hk Hnot.
    rewrite el_get_set_other
      by (intros <-; apply Hnot; left; reflexivity).
    rewrite el_get_clean_namespaces, Hk.
    apply Hother. intros Hin. apply Hnot. right. exact Hin.
Qed.

Lemma X8_witness :
  TrimSvgFixed.read_current_dims decimal_float auto_size
  = Ok [0; 0; 100; 100]
  /\ TrimSvgFixed.calculate_bounds_recursive decimal_float
       auto_size (0, 0)
     = Ok [Bounds 0 100 0 100]
  /\ exists written,
       TrimSvgFixed.trim_svg decimal_float decimal_repr
         auto_size None
       = (Ok true, Some written)
       /\ el_get written
            "{http://www.inkscape.org/namespaces/inkscape}version" = None
       /\ el_get written "width" = Some "130.0"%string.
Proof.
  assert (Hd : TrimSvgFixed.read_current_dims decimal_float auto_size
               = Ok [0; 0; 100; 100]) by (vm_compute; reflexivity).
  assert (Hw : TrimSvgFixed.calculate_bounds_recursive decimal_float
                 auto_size (0, 0)
               = Ok [Bounds 0 100 0 100]) by (vm_compute; reflexivity).
  split; [exact Hd|]. split; [exact Hw|].
  destruct (X8_fixed_trim_svg_writes_and_cleans decimal_float decimal_repr
              auto_size None _ _ _ Hd (Nat.le_refl 4) Hw)
    as (m & written & Hm & Hrun & _ & _ & _ & Hwidth & _ & _ & Hns & _).
  exists written. split; [exact Hrun|]. split.
  - apply Hns. reflexivity.
  - rewrite Hwidth. injection Hm as <-. vm_compute. reflexivity.
Defined.



(** X10: [trim_svg], in both scripts, either leaves the output as it was
    and does not return [True], or has written the output and then returns
    [True] or raises [IndexError] from the closing report.  Nothing is
    written when the dimensions cannot be read, the walk raises, or no
    content is found.  In [trim_svg_fixed.py], which writes the tree
    itself, the tree written has the tag and the children of the input:
    the geometry of the document is not rewritten. *)
Theorem X10_output_is_untouched_or_written
  (py_float : string -> result Q) (py_str : Q -> string)
  (root : element) (out : file_system) :
  ((snd (TrimSvg.trim_svg py_float py_str root out) = out
    /\ fst (TrimSvg.trim_svg py_float py_str root out) <> Ok true)
   \/ ((exists written,
          snd (TrimSvg.trim_svg py_float py_str root out) = Some written)
       /\ (fst (TrimSvg.trim_svg py_float py_str root out) = Ok true
           \/ fst (TrimSvg.trim_svg py_float py_str root out)
              = Raise IndexError)))
  /\ ((snd (TrimSvgFixed.trim_svg py_float py_str root out) = out
       /\ fst (TrimSvgFixed.trim_svg py_float py_str root out) <> Ok true)
      \/ exists written,
           snd (TrimSvgFixed.trim_svg py_float py_str root out)
           = Some written
           /\ tag written = tag root
           /\ children written = children root
           /\ (fst (TrimSvgFixed.trim_svg py_float py_str root out) = Ok true
               \/ fst (TrimSvgFixed.trim_svg py_float py_str root out)
                  = Raise IndexError)).
Proof.
  split.
  - unfold TrimSvg.trim_svg.
    destruct (TrimSvg.read_current_dims py_float root) as [dims|e];
      [|left; split; [reflexivity | discriminate]].
    destruct (TrimSvg.calculate_content_bounds py_float root) as [[v|]|e];
      [| left; split; [reflexivity | discriminate]
       | left; split; [reflexivity | discriminate]].
    right. split; [eexists; reflexivity|].
    destruct dims as [|a [|b [|c [|d dims]]]]; simpl; tauto.
  - unfold TrimSvgFixed.trim_svg.
    destruct (TrimSvgFixed.read_current_dims py_float root) as [dims|e];
      [|left; split; [reflexivity | discriminate]].
    destruct (TrimSvgFixed.calculate_bounds_recursive py_float root (0, 0))
      as [[|b rest]|e];
      [ left; split; [reflexivity | discriminate]
      | | left; split; [reflexivity | discriminate]].
    destruct (merge_not_empty b rest) as [m Hm]. rewrite Hm.
    right. eexists. split; [reflexivity|].
    destruct (three_sets root
                (TrimSvgFixed.format_view_box py_str
                   (TrimSvgFixed.add_padding m))
                (py_str (TrimSvgFixed.vb_width (TrimSvgFixed.add_padding m)))
                (py_str
                   (TrimSvgFixed.vb_height (TrimSvgFixed.add_padding m))))
      as (Htag & Hch & _).
    split.
    { cbn [snd]. rewrite (proj1 (el_set_shape _ _ _)),
        (proj1 (clean_namespaces_shape _)). exact Htag. }
    split.
    { cbn [snd]. rewrite (proj2 (el_set_shape _ _ _)),
        (proj2 (clean_namespaces_shape _)). exact Hch. }
    destruct dims as [|a [|c [|d [|f dims]]]]; simpl; tauto.
Qed.

(** X11: without a [viewBox], a root [width] that does not start with a
    number makes [trim_svg] of [trim_svg.py] raise [AttributeError] before
    anything is computed or written, whatever the document holds;
    [trim_svg_fixed.py] reads such a width, and such a height, as 100. *)
Theorem X11_width_without_number
  (py_float : string -> result Q) (py_str : Q -> string)
  (root : element) (out : file_system) :
  truthy (el_get_default root "viewBox" "") = false ->
  Re.match_ Re.number (el_get_default root "width" "100") = None ->
  TrimSvg.trim_svg py_float py_str root out = (Raise AttributeError, out)
  /\ (Re.match_ Re.number (el_get_default root "height" "100") = None ->
      TrimSvgFixed.read_current_dims py_float root = Ok [0; 0; 100; 100]).
Proof.
  intros Hvb Hw. unfold el_get_default in Hvb.
  split.
  - unfold TrimSvg.trim_svg, TrimSvg.read_current_dims.
    destruct (el_get root "viewBox") as [[|c s]|];
      try discriminate; rewrite Hw; reflexivity.
  - intros Hh. unfold TrimSvgFixed.read_current_dims.
    destruct (el_get root "viewBox") as [[|c s]|];
      try discriminate; rewrite Hw, Hh; reflexivity.
Qed.

Lemma X11_witness :
  truthy (el_get_default auto_size "viewBox" "") = false
  /\ Re.match_ Re.number (el_get_default auto_size "width" "100") = None
  /\ TrimSvg.trim_svg decimal_float decimal_repr auto_size None
     = (Raise AttributeError, None)
  /\ TrimSvgFixed.read_current_dims decimal_float auto_size
     = Ok [0; 0; 100; 100].
Proof.
  destruct (X11_width_without_number decimal_float decimal_repr auto_size
              None eq_refl eq_refl) as [Hfirst Hfixed].
  split; [reflexivity|]. split; [reflexivity|]. split; [exact Hfirst|].
  apply Hfixed. reflexivity.
Defined.

(* ================================================================== *)
(** * The order of the rectangles does not matter *)

Section Order.

Lemma fold_min2_mem (l : list Q) (x : Q) :
  fold_left min2 l x = x \/ In (fold_left min2 l x) l.
Proof.
  revert x. induction l as [|y l IH]; intros x; simpl; [left; reflexivity|].
  destruct (IH (min2 x y)) as [H | H]; [|right; right; exact H].
  rewrite H. unfold min2. destruct (Qltb y x); [right|]; left; reflexivity.
Qed.

Lemma fold_max2_mem (l : list Q) (x : Q) :
  fold_left max2 l x = x \/ In (fold_left max2 l x) l.
Proof.
  revert x. induction l as [|y l IH]; intros x; simpl; [left; reflexivity|].
  destruct (IH (max2 x y)) as [H | H]; [|right; right; exact H].
  rewrite H. unfold max2. destruct (Qltb x y); [right|]; left; reflexivity.
Qed.

Lemma min_list_mem (l : list Q) (m : Q) : min_list l = Ok m -> In m l.
Proof.
  destruct l as [|x l]; simpl; [discriminate|]. intros [= <-].
  destruct (fold_min2_mem l x) as [-> | H]; [left; reflexivity | right; exact H].
Qed.

Lemma max_list_mem (l : list Q) (m : Q) : max_list l = Ok m -> In m l.
Proof.
  destruct l as [|x l]; simpl; [discriminate|]. intros [= <-].
  destruct (fold_max2_mem l x) as [-> | H]; [left; reflexivity | right; exact H].
Qed.

Lemma min_list_permutation (l l' : list Q) (m m' : Q) :
  Permutation l l' -> min_list l = Ok m -> min_list l' = Ok m' -> m == m'.
Proof.
  intros Hp Hm Hm'. apply Qle_antisym.
  - apply (min_list_le _ _ _ Hm).
    apply (Permutation_in _ (Permutation_sym Hp)), min_list_mem, Hm'.
  - apply (min_list_le _ _ _ Hm').
    apply (Permutation_in _ Hp), min_list_mem, Hm.
Qed.

Lemma max_list_permutation (l l' : list Q) (m m' : Q) :
  Permutation l l' -> max_list l = Ok m -> max_list l' = Ok m' -> m == m'.
Proof.
  intros Hp Hm Hm'. apply Qle_antisym.
  - apply (max_list_ge _ _ _ Hm').
    apply (Permutation_in _ Hp), max_list_mem, Hm.
  - apply (max_list_ge _ _ _ Hm).
    apply (Permutation_in _ (Permutation_sym Hp)), max_list_mem, Hm'.
Qed.

End Order.

(** X12: the merged bounds of [trim_svg_fixed.py] do not depend on the
    order in which the walk lists the rectangles: any rearrangement of
    [all_bounds] merges to a rectangle with the same coordinates. *)
Theorem X12_merge_ignores_the_order
  (all_bounds all_bounds' : list bounds) (m : bounds) :
  Permutation all_bounds all_bounds' ->
  TrimSvgFixed.merge all_bounds = Ok m ->
  exists m',
    TrimSvgFixed.merge all_bounds' = Ok m' /\ bounds_equiv m m'.
Proof.
  intros Hp Hm.
  destruct all_bounds' as [|b' rest'].
  { apply Permutation_sym, Permutation_nil in Hp. subst all_bounds.
    discriminate. }
  destruct (merge_not_empty b' rest') as [m' Hm'].
  exists m'. split; [exact Hm'|].
  remember (b' :: rest') as l' eqn:Hl'. clear Hl'.
  rename Hp into Hp'.
  unfold TrimSvgFixed.merge in Hm, Hm'.
  destruct (min_list (map min_x all_bounds)) as [a1|] eqn:A1;
    simpl in Hm; [|discriminate].
  destruct (max_list (map max_x all_bounds)) as [a2|] eqn:A2;
    simpl in Hm; [|discriminate].
  destruct (min_list (map min_y all_bounds)) as [a3|] eqn:A3;
    simpl in Hm; [|discriminate].
  destruct (max_list (map max_y all_bounds)) as [a4|] eqn:A4;
    simpl in Hm; [|discriminate].
  destruct (min_list (map min_x l')) as [c1|] eqn:C1;
    simpl in Hm'; [|discriminate].
  destruct (max_list (map max_x l')) as [c2|] eqn:C2;
    simpl in Hm'; [|discriminate].
  destruct (min_list (map min_y l')) as [c3|] eqn:C3;
    simpl in Hm'; [|discriminate].
  destruct (max_list (map max_y l')) as [c4|] eqn:C4;
    simpl in Hm'; [|discriminate].
  injection Hm as <-. injection Hm' as <-.
  unfold bounds_equiv; simpl.
  split; [exact (min_list_permutation _ _ _ _
                   (Permutation_map min_x Hp') A1 C1)|].
  split; [exact (max_list_permutation _ _ _ _
                   (Permutation_map max_x Hp') A2 C2)|].
  split; [exact (min_list_permutation _ _ _ _
                   (Permutation_map min_y Hp') A3 C3)|].
  exact (max_list_permutation _ _ _ _ (Permutation_map max_y Hp') A4 C4).
Qed.

Lemma X12_witness :
  Permutation [Bounds 0 10 0 10; Bounds 5 20 (-3) 4]
    [Bounds 5 20 (-3) 4; Bounds 0 10 0 10]
  /\ TrimSvgFixed.merge [Bounds 0 10 0 10; Bounds 5 20 (-3) 4]
     = Ok (Bounds 0 20 (-3) 10)
  /\ exists m',
       TrimSvgFixed.merge [Bounds 5 20 (-3) 4; Bounds 0 10 0 10] = Ok m'
       /\ bounds_equiv (Bounds 0 20 (-3) 10) m'.
Proof.
  assert (Hp : Permutation [Bounds 0 10 0 10; Bounds 5 20 (-3) 4]
                 [Bounds 5 20 (-3) 4; Bounds 0 10 0 10])
    by apply perm_swap.
  assert (Hm : TrimSvgFixed.merge [Bounds 0 10 0 10; Bounds 5 20 (-3) 4]
               = Ok (Bounds 0 20 (-3) 10)) by (vm_compute; reflexivity).
  split; [exact Hp|]. split; [exact Hm|].
  exact (X12_merge_ignores_the_order _ _ _ Hp Hm).
Defined.

(* ================================================================== *)
(** * Tags *)

Section Tags.

Lemma append_length (s t : string) :
  String.length (s ++ t)%string = (String.length s + String.length t)%nat.
Proof. induction s as [|c s IH]; simpl; [reflexivity | rewrite IH; reflexivity]. Qed.

Lemma append_assoc (s t u : string) :
  ((s ++ t) ++ u = s ++ (t ++ u))%string.
Proof. induction s as [|c s IH]; simpl; [reflexivity | rewrite IH; reflexivity]. Qed.

Lemma substring_whole (p : string) : String.substring 0 (String.length p) p = p.
Proof. induction p as [|c p IH]; simpl; [reflexivity | rewrite IH; reflexivity]. Qed.

Lemma substring_append_skip (pre p : string) (m : nat) :
  String.substring (String.length pre) m (pre ++ p) = String.substring 0 m p.
Proof. induction pre as [|c pre IH]; simpl; [reflexivity | exact IH]. Qed.

Lemma substring_split (s : string) (k : nat) :
  (k <= String.length s)%nat ->
  s = (String.substring 0 k s
       ++ String.substring k (String.length s - k) s)%string.
Proof.
  revert k. induction s as [|c s IH]; intros k Hk.
  - destruct k; [reflexivity | simpl in Hk; lia].
  - destruct k as [|k].
    + cbn [String.substring String.length Nat.sub append].
      rewrite substring_whole. reflexivity.
    + cbn [String.substring String.length Nat.sub append].
      rewrite <- (IH k) by (simpl in Hk; lia). reflexivity.
Qed.

(** [s.endswith(p)] holds exactly when [s] is some text followed by
    [p]. *)
Lemma endswith_has_suffix (s p : string) :
  endswith s p = true <-> has_suffix s p.
Proof.
  unfold endswith, has_suffix. split.
  - intros H. apply andb_true_iff in H. destruct H as [Hlen Heq].
    apply Nat.leb_le in Hlen. apply String.eqb_eq in Heq.
    exists (String.substring 0 (String.length s - String.length p) s).
    pose proof (substring_split s (String.length s - String.length p))
      as Hsplit.
    replace (String.length s - (String.length s - String.length p))%nat
      with (String.length p) in Hsplit by lia.
    rewrite Heq in Hsplit. apply Hsplit. lia.
  - intros [pre ->]. rewrite append_length.
    apply andb_true_iff. split; [apply Nat.leb_le; lia|].
    replace (String.length pre + String.length p - String.length p)%nat
      with (String.length pre) by lia.
    rewrite substring_append_skip, substring_whole.
    apply String.eqb_refl.
Qed.

Lemma endswith_longer (s q p : string) :
  endswith s (q ++ p) = true -> endswith s p = true.
Proof.
  intros H. apply endswith_has_suffix in H. destruct H as [pre ->].
  apply endswith_has_suffix. exists (pre ++ q)%string.
  symmetry. apply append_assoc.
Qed.

Lemma non_visual_tag_has_no_shape (name : string) :
  TrimSvgFixed.is_non_visual_tag name = true ->
  TrimSvgFixed.shape_of name = Other.
Proof.
  unfold TrimSvgFixed.is_non_visual_tag, non_visual_tags.
  cbn [existsb]. intros H.
  repeat (apply orb_true_iff in H; destruct H as [H | H];
          [apply String.eqb_eq in H; subst name; reflexivity|]).
  discriminate.
Qed.

End Tags.

(** X13: in [trim_svg.py] a tag that ends in [polyline] also ends in
    [line], and the test for lines comes first: the shape dispatch of
    [get_element_bounds] never takes the polygon/polyline branch for a
    polyline, whose [points] are therefore never read. *)
Theorem X13_polyline_never_reaches_its_branch (t : string) :
  endswith t "polyline" = true ->
  endswith t "line" = true
  /\ In (TrimSvg.shape_of t) [Rect; Circle; Ellipse; Path; Line].
Proof.
  intros H.
  assert (Hline : endswith t "line" = true)
    by exact (endswith_longer t "poly" "line" H).
  split; [exact Hline|].
  unfold TrimSvg.shape_of. rewrite Hline.
  destruct (endswith t "rect"); [simpl; tauto|].
  destruct (endswith t "circle"); [simpl; tauto|].
  destruct (endswith t "ellipse"); [simpl; tauto|].
  destruct (endswith t "path"); simpl; tauto.
Qed.

Lemma X13_witness :
  endswith "{http://www.w3.org/2000/svg}polyline" "polyline" = true
  /\ In (TrimSvg.shape_of "{http://www.w3.org/2000/svg}polyline")
       [Rect; Circle; Ellipse; Path; Line].
Proof.
  split; [reflexivity|].
  exact (proj2 (X13_polyline_never_reaches_its_branch
                  "{http://www.w3.org/2000/svg}polyline" eq_refl)).
Defined.

(** X14: [calculate_bounds_recursive] tests the tag of a node only when
    it meets the node as a child.  The node the walk starts from is never
    skipped: a root with a non-visual tag is walked like a group with the
    same attributes and children. *)
Theorem X14_starting_node_is_never_skipped
  (py_float : string -> result Q) (t : string) (a : attrib)
  (cs : list element) (p : Q * Q) :
  TrimSvgFixed.is_non_visual_tag (TrimSvgFixed.local_name (Element t a cs))
  = true ->
  TrimSvgFixed.calculate_bounds_recursive py_float (Element t a cs) p
  = TrimSvgFixed.calculate_bounds_recursive py_float (Element "g" a cs) p.
Proof.
  intros H. apply non_visual_tag_has_no_shape in H.
  cbn [TrimSvgFixed.calculate_bounds_recursive].
  unfold el_get_default, el_get. cbn [attribs].
  destruct (TrimSvgFixed.parse_transform py_float _); [|reflexivity].
  cbn [Py.bind]. unfold TrimSvgFixed.own_bounds. rewrite H.
  reflexivity.
Qed.

Lemma X14_witness :
  TrimSvgFixed.is_non_visual_tag
    (TrimSvgFixed.local_name
       (Element "defs" [] [Examples.rect_10_10_20_30])) = true
  /\ TrimSvgFixed.calculate_bounds_recursive decimal_float
       (Element "defs" [] [Examples.rect_10_10_20_30]) (0, 0)
     = TrimSvgFixed.calculate_bounds_recursive decimal_float
         (Element "g" [] [Examples.rect_10_10_20_30]) (0, 0)
  /\ TrimSvgFixed.calculate_bounds_recursive decimal_float
       (Element "defs" [] [Examples.rect_10_10_20_30]) (0, 0)
     = Ok [Bounds 10 30 10 40].
Proof.
  split; [reflexivity|]. split.
  - exact (X14_starting_node_is_never_skipped decimal_float "defs" []
             [Examples.rect_10_10_20_30] (0, 0) eq_refl).
  - vm_compute; reflexivity.
Defined.

(* ================================================================== *)
(** * No content *)

Section NoContent.

Variable py_float : string -> result Q.

(** Once a rectangle is folded in, [has_content] stays set. *)
Lemma aggregate_has_content
  (elements : list element) (acc acc' : TrimSvg.content_acc) :
  TrimSvg.has_content acc = true ->
  TrimSvg.aggregate py_float elements acc = Ok acc' ->
  TrimSvg.has_content acc' = true.
Proof.
  revert acc. induction elements as [|e elements IH]; intros acc Hacc; simpl.
  - intros [= <-]. exact Hacc.
  - destruct (TrimSvg.is_non_visual e); [apply IH; exact Hacc|].
    destruct (TrimSvg.get_element_bounds py_float e) as [[b|]|]; simpl;
      [| apply IH; exact Hacc | discriminate].
    apply IH. reflexivity.
Qed.

Lemma aggregate_nothing_folded
  (elements : list element) (acc acc' : TrimSvg.content_acc) :
  TrimSvg.aggregate py_float elements acc = Ok acc' ->
  TrimSvg.has_content acc' = false ->
  Forall
    (fun e =>
       TrimSvg.is_non_visual e = true
       \/ TrimSvg.get_element_bounds py_float e = Ok None)
    elements.
Proof.
  revert acc. induction elements as [|e elements IH]; intros acc; simpl;
    [constructor|].
  destruct (TrimSvg.is_non_visual e) eqn:Hnv.
  - intros H Hc. constructor; [left; exact Hnv | exact (IH _ H Hc)].
  - destruct (TrimSvg.get_element_bounds py_float e) as [[b|]|] eqn:Hb;
      simpl; [| | discriminate].
    + intros H Hc.
      rewrite (aggregate_has_content elements (TrimSvg.combine acc b) acc'
                 eq_refl H) in Hc.
      discriminate.
    + intros H Hc. constructor; [right; exact Hb | exact (IH _ H Hc)].
Qed.

End NoContent.

(** X15: [calculate_content_bounds] of [trim_svg.py] returns [None], the
    "could not determine content bounds" outcome, exactly when every node
    of the document is skipped as non-visual or yields no rectangle and
    none raises. *)
Theorem X15_no_content_exactly_without_rectangles
  (py_float : string -> result Q) (root : element) :
  TrimSvg.calculate_content_bounds py_float root = Ok None
  <-> Forall
        (fun e =>
           TrimSvg.is_non_visual e = true
           \/ TrimSvg.get_element_bounds py_float e = Ok None)
        (TrimSvg.iter root).
Proof.
  split.
  - intros H.
    destruct (calculate_content_bounds_cases py_float root None H)
      as [[_ Hagg] | (b & _ & Hsome)]; [|discriminate].
    exact (aggregate_nothing_folded py_float _ _ _ Hagg eq_refl).
  - apply calculate_content_bounds_nothing.
Qed.

(* ================================================================== *)
(** * The matcher and the form of a pattern *)

Section Matching.

Lemma append_empty (s : string) : (s ++ "")%string = s.
Proof. induction s as [|c s IH]; simpl; [reflexivity | rewrite IH; reflexivity]. Qed.

Lemma substring_of_prefix (m rest : string) :
  String.substring 0 (String.length (m ++ rest) - String.length rest)
    (m ++ rest) = m.
Proof.
  rewrite append_length.
  replace (String.length m + String.length rest - String.length rest)%nat
    with (String.length m) by lia.
  induction m as [|c m IH]; simpl.
  - destruct rest; reflexivity.
  - rewrite IH. reflexivity.
Qed.

(** ** What the matcher finds is of the form of the pattern *)

Lemma lit_sound (R : Type) (p s : string) (k : string -> option R) (x : R) :
  Re.lit p s k = Some x ->
  exists rest, s = (p ++ rest)%string /\ k rest = Some x.
Proof.
  revert s. induction p as [|a p IH]; intros s H; simpl in H.
  - exists s. split; [reflexivity | exact H].
  - destruct s as [|c s]; [discriminate|].
    destruct (Ascii.eqb a c) eqn:E; [|discriminate].
    apply Ascii.eqb_eq in E. subst c.
    destruct (IH s H) as (rest & -> & Hk).
    exists rest. split; [reflexivity | exact Hk].
Qed.

Lemma star_sound (R : Type) (p : ascii -> bool) (s : string)
  (k : string -> option R) (x : R) :
  Re.star p s k = Some x ->
  exists m rest, s = (m ++ rest)%string /\ all_in p m /\ k rest = Some x.
Proof.
  revert x. induction s as [|c s IH]; intros x H; simpl in H.
  - exists EmptyString, EmptyString. repeat split. exact H.
  - destruct (p c) eqn:Hc.
    + destruct (Re.star p s k) as [y|] eqn:E.
      * injection H as <-.
        destruct (IH y eq_refl) as (m & rest & -> & Hall & Hk).
        exists (String c m), rest. repeat split; assumption.
      * exists EmptyString, (String c s). repeat split. exact H.
    + exists EmptyString, (String c s). repeat split. exact H.
Qed.

Lemma run_sound (R : Type) (r : Re.regex) :
  forall (s : string) (caps : Re.captures)
         (k : string -> Re.captures -> option R) (x : R),
    Re.run r s caps k = Some x ->
    exists m rest caps',
      s = (m ++ rest)%string /\ lang r m /\ k rest caps' = Some x.
Proof.
  induction r as [p | p | p | p | r IH | r1 IH1 r2 IH2 | n r IH];
    intros s caps k x H; cbn [Re.run] in H.
  - apply lit_sound in H. destruct H as (rest & -> & Hk).
    exists p, rest, caps. repeat split. exact Hk.
  - destruct s as [|c s]; [discriminate|].
    destruct (p c) eqn:Hc; [|discriminate].
    exists (String c EmptyString), s, caps.
    split; [reflexivity|]. split; [|exact H].
    exists c. split; [reflexivity | exact Hc].
  - apply star_sound in H. destruct H as (m & rest & -> & Hall & Hk).
    exists m, rest, caps. repeat split; assumption.
  - destruct s as [|c s]; [discriminate|].
    destruct (p c) eqn:Hc; [|discriminate].
    apply star_sound in H. destruct H as (m & rest & -> & Hall & Hk).
    exists (String c m), rest, caps.
    split; [reflexivity|]. split; [|exact Hk].
    exists c, m. repeat split; assumption.
  - destruct (Re.run r s caps k) as [y|] eqn:E.
    + injection H as <-.
      destruct (IH _ _ _ _ E) as (m & rest & caps' & -> & Hl & Hk).
      exists m, rest, caps'. split; [reflexivity|].
      split; [right; exact Hl | exact Hk].
    + exists EmptyString, s, caps. split; [reflexivity|].
      split; [left; reflexivity | exact H].
  - destruct (IH1 _ _ _ _ H) as (m1 & rest1 & caps1 & -> & Hl1 & Hk1).
    destruct (IH2 _ _ _ _ Hk1) as (m2 & rest2 & caps2 & -> & Hl2 & Hk2).
    exists (m1 ++ m2)%string, rest2, caps2.
    split; [symmetry; apply append_assoc|].
    split; [|exact Hk2].
    exists m1, m2. repeat split; assumption.
  - destruct (IH _ _ _ _ H) as (m & rest & caps' & -> & Hl & Hk).
    exists m, rest. eexists. split; [reflexivity|].
    split; [exact Hl | exact Hk].
Qed.

(** ** Where the pattern fits, the matcher finds a match *)

Lemma lit_append (R : Type) (p rest : string) (k : string -> option R) :
  Re.lit p (p ++ rest) k = k rest.
Proof.
  induction p as [|a p IH]; simpl; [reflexivity|].
  rewrite Ascii.eqb_refl. exact IH.
Qed.

Lemma star_falls_back (R : Type) (p : ascii -> bool) (s : string)
  (k : string -> option R) :
  k s <> None -> Re.star p s k <> None.
Proof.
  intros Hk. destruct s as [|c s]; simpl; [exact Hk|].
  destruct (p c); [|exact Hk].
  destruct (Re.star p s k); [discriminate | exact Hk].
Qed.

Lemma star_complete (R : Type) (p : ascii -> bool) (m rest : string)
  (k : string -> option R) :
  all_in p m -> k rest <> None -> Re.star p (m ++ rest) k <> None.
Proof.
  intros Hall Hk. induction m as [|c m IH]; simpl.
  - apply star_falls_back. exact Hk.
  - destruct Hall as [Hc Hall]. rewrite Hc.
    specialize (IH Hall).
    destruct (Re.star p (m ++ rest) k); [discriminate | contradiction].
Qed.

Lemma run_complete (R : Type) (r : Re.regex) :
  forall (m rest : string) (caps : Re.captures)
         (k : string -> Re.captures -> option R),
    lang r m ->
    (forall caps', k rest caps' <> None) ->
    Re.run r (m ++ rest) caps k <> None.
Proof.
  induction r as [p | p | p | p | r IH | r1 IH1 r2 IH2 | n r IH];
    intros m rest caps k Hl Hk; cbn [Re.run]; cbn [lang] in Hl.
  - subst m. rewrite lit_append. apply Hk.
  - destruct Hl as (c & -> & Hc). simpl. rewrite Hc. apply Hk.
  - apply star_complete; [exact Hl | apply Hk].
  - destruct Hl as (c & m' & -> & Hc & Hall). simpl. rewrite Hc.
    apply star_complete; [exact Hall | apply Hk].
  - destruct (Re.run r (m ++ rest) caps k) eqn:E; [discriminate|].
    destruct Hl as [-> | Hl]; [apply Hk|].
    exfalso. exact (IH _ _ _ _ Hl Hk E).
  - destruct Hl as (m1 & m2 & -> & Hl1 & Hl2).
    rewrite append_assoc.
    apply IH1; [exact Hl1|].
    intros caps'. apply IH2; [exact Hl2 | exact Hk].
  - apply IH; [exact Hl|]. intros caps'. apply Hk.
Qed.

(** [re.fullmatch] succeeds exactly on the texts of the form of the
    pattern. *)
Lemma fullmatch_lang (r : Re.regex) (m : string) :
  Re.fullmatch r m <> None <-> lang r m.
Proof.
  unfold Re.fullmatch. split.
  - intros H.
    destruct (Re.run r m [] _) as [x|] eqn:E; [|contradiction].
    destruct (run_sound _ _ _ _ _ _ E) as (m' & rest & caps' & -> & Hl & Hk).
    destruct rest; [|discriminate].
    rewrite append_empty. exact Hl.
  - intros Hl. rewrite <- (append_empty m).
    apply run_complete; [exact Hl|]. intros caps'. discriminate.
Qed.

Lemma match_at_sound (r : Re.regex) (s m rest : string) (caps : Re.captures) :
  Re.match_at r s = Some (m, caps, rest) ->
  s = (m ++ rest)%string /\ lang r m.
Proof.
  unfold Re.match_at. intros H.
  destruct (run_sound _ _ _ _ _ _ H) as (m' & rest' & caps' & -> & Hl & Hk).
  rewrite substring_of_prefix in Hk. injection Hk as <- _ <-.
  split; [reflexivity | exact Hl].
Qed.

(** [re.search] finds a match exactly when some part of the subject is
    of the form of the pattern. *)
Lemma search_sound (r : Re.regex) (s m : string) (caps : Re.captures) :
  Re.search r s = Some (m, caps) ->
  exists pre post, s = (pre ++ m ++ post)%string /\ lang r m.
Proof.
  induction s as [|c s IH]; intros H.
  - simpl in H. unfold Re.match_ in H.
    destruct (Re.match_at r "") as [[[m' caps'] rest]|] eqn:E;
      [|discriminate].
    injection H as -> ->.
    destruct (match_at_sound _ _ _ _ _ E) as [Hs Hl].
    exists EmptyString, rest. split; [exact Hs | exact Hl].
  - change (Re.search r (String c s))
      with (match Re.match_ r (String c s) with
            | Some m' => Some m'
            | None => Re.search r s
            end) in H.
    unfold Re.match_ in H.
    destruct (Re.match_at r (String c s)) as [[[m' caps'] rest]|] eqn:E.
    + injection H as -> ->.
      destruct (match_at_sound _ _ _ _ _ E) as [Hs Hl].
      exists EmptyString, rest. split; [exact Hs | exact Hl].
    + destruct (IH H) as (pre & post & -> & Hl).
      exists (String c pre), post. split; [reflexivity | exact Hl].
Qed.

Lemma match_complete (r : Re.regex) (m post : string) :
  lang r m -> Re.match_ r (m ++ post) <> None.
Proof.
  intros Hl. unfold Re.match_, Re.match_at.
  pose proof (run_complete _ r m post []
                (fun rest caps =>
                   Some (String.substring 0
                           (String.length (m ++ post) - String.length rest)
                           (m ++ post), caps, rest))
                Hl (fun caps' => ltac:(discriminate))) as H.
  destruct (Re.run r (m ++ post) [] _) as [[[m' caps'] rest]|];
    [discriminate | contradiction].
Qed.

Lemma search_complete (r : Re.regex) (pre m post : string) :
  lang r m -> Re.search r (pre ++ m ++ post) <> None.
Proof.
  intros Hl. induction pre as [|c pre IH].
  - cbn [append].
    pose proof (match_complete r m post Hl) as H.
    destruct (m ++ post)%string as [|c s] eqn:E; simpl;
      destruct (Re.match_ r _); try discriminate; contradiction.
  - change (Re.search r (String c pre ++ m ++ post))
      with (match Re.match_ r (String c (pre ++ m ++ post)) with
            | Some m' => Some m'
            | None => Re.search r (pre ++ m ++ post)
            end).
    destruct (Re.match_ r _); [discriminate | exact IH].
Qed.

(** The pattern of the scripts is found in a transform string exactly
    when the string contains a translation. *)
Lemma search_translate_iff (s : string) :
  Re.search Re.translate s = None <-> ~ contains_translation s.
Proof.
  split.
  - intros Hnone (pre & m & post & -> & Hl).
    exact (search_complete Re.translate pre m post Hl Hnone).
  - intros Hno. destruct (Re.search Re.translate s) as [[m caps]|] eqn:E;
      [|reflexivity].
    exfalso. apply Hno.
    destruct (search_sound _ _ _ _ E) as (pre & post & Hs & Hl).
    exists pre, m, post. split; [exact Hs | exact Hl].
Qed.

End Matching.

(** C4 (as amended): a transform string that contains no translation of
    the form [translate(tx[, ty])], be it a rotation, a scale, a skew, a
    matrix, a chain of those, or a text such as [translateX(5)] or
    [translate()], gives the offset (0,0) in [parse_transform] and leaves
    the local rectangle of [get_element_bounds] as it is, and no error is
    raised. *)
Theorem C4_transform_without_a_translation_is_ignored
  (py_float : string -> result Q) (s : string) :
  ~ contains_translation s ->
  TrimSvgFixed.parse_transform py_float s = Ok (0, 0)
  /\ (forall e : element,
        el_get e "transform" = Some s ->
        TrimSvg.get_element_bounds py_float e
        = TrimSvg.local_bounds py_float e).
Proof.
  intros Hno. apply search_translate_iff in Hno. split.
  - unfold TrimSvgFixed.parse_transform.
    destruct (truthy s); simpl; [|reflexivity].
    rewrite Hno. reflexivity.
  - intros e Hget. unfold TrimSvg.get_element_bounds. rewrite Hget.
    destruct (TrimSvg.local_bounds py_float e) as [[b|]|]; simpl;
      try reflexivity.
    rewrite Hno. destruct (truthy s); reflexivity.
Qed.

Lemma C4_witness :
  ~ contains_translation "rotate(45)"
  /\ ~ contains_translation "translateX(5) translate()"
  /\ TrimSvgFixed.parse_transform decimal_float "rotate(45)" = Ok (0, 0)
  /\ TrimSvgFixed.parse_transform decimal_float "translateX(5) translate()"
     = Ok (0, 0)
  /\ TrimSvg.get_element_bounds decimal_float Examples.rotated_rect
     = TrimSvg.local_bounds decimal_float Examples.rotated_rect.
Proof.
  assert (H1 : ~ contains_translation "rotate(45)")
    by (apply search_translate_iff; vm_compute; reflexivity).
  assert (H2 : ~ contains_translation "translateX(5) translate()")
    by (apply search_translate_iff; vm_compute; reflexivity).
  destruct (C4_transform_without_a_translation_is_ignored decimal_float
              "rotate(45)" H1) as [Hfixed Hfirst].
  destruct (C4_transform_without_a_translation_is_ignored decimal_float
              "translateX(5) translate()" H2) as [Hfixed' _].
  split; [exact H1|]. split; [exact H2|].
  split; [exact Hfixed|]. split; [exact Hfixed'|].
  apply Hfirst. reflexivity.
Defined.

(* ================================================================== *)
(** * Malformed numbers, shape by shape *)

Section MalformedText.

Variable py_float : string -> result Q.


End MalformedText.



